(** * GenesisH0: genesis-block construction and proof-of-work nonce search

    A shallow embedding of [genesis.py].  Python values are embedded as
    follows: [int] as [Z] (unbounded), [bytes] as [list byte], ASCII/hex
    [str] values as [string], the coinbase timestamp (an arbitrary Python 3
    [str]) as its list of code points, and the one number that Python may turn
    into a [float] (the difficulty target) as an exact rational.  A call
    yields a value or an exception ([sys.exit] raises [SystemExit]); [print]
    is an event of an output trace; the [while True] loop takes fuel.

    The libraries the program imports are modelled next to it: [struct],
    Construct 2.x, and the hash functions, which the program takes from a
    record [Libs] so that its properties hold for every implementation;
    SHA-256 and scrypt are also written out, to run the program on the
    genesis headers of Bitcoin and Litecoin. *)

From Stdlib Require Import ZArith QArith Qpower List String Ascii Bool Lia.
From Stdlib Require Import Uint63.
From Stdlib.Strings Require Import Byte.
From Stdlib Require Import DecimalString.
Import ListNotations.
Close Scope Q_scope.
Local Open Scope Z_scope.

(* ================================================================== *)
(** ** Python runtime: results, exceptions, output *)

Definition bytes := list byte.

Definition byte_of_Z (z : Z) : byte :=
  match Byte.of_N (Z.to_N (Z.land z 0xff)) with
  | Some b => b
  | None => x00
  end.

Definition Z_of_byte (b : byte) : Z := Z.of_N (Byte.to_N b).

(** The exceptions the program can end with.  [SystemExit] is what
    [sys.exit(msg)] raises: uncaught, it writes [msg] to stderr and the
    process ends with status 1, as it does for every other uncaught
    exception. *)
Inductive exn : Type :=
| ValueError
| TypeError
| AttributeError
| UnicodeEncodeError
| StructError
| FieldError
| SystemExit (msg : string).

(** What a function call yields: a value or an exception. *)
Inductive res (A : Type) : Type :=
| Ok (a : A)
| Raise (e : exn).
Arguments Ok {A} a.
Arguments Raise {A} e.

Definition rbind {A B} (m : res A) (f : A -> res B) : res B :=
  match m with
  | Ok a => f a
  | Raise e => Raise e
  end.

(** How a run ends: it returns, an exception goes uncaught, or (in the model
    only) the fuel given to the [while True] loop runs out. *)
Inductive outcome (A : Type) : Type :=
| Return (a : A)
| Raised (e : exn)
| OutOfFuel.
Arguments Return {A} a.
Arguments Raised {A} e.
Arguments OutOfFuel {A}.

(** What reaches stdout: a [print] call, or the carriage-return progress line
    of [calculate_hashrate], whose text depends on the wall clock and is kept
    abstract (only the nonce that triggered it is recorded). *)
Inductive event : Type :=
| Line (s : string)
| Progress (nonce : Z).

(** A computation that prints: the events it emitted, in order, and how it
    ended. *)
Definition io (A : Type) : Type := (list event * outcome A)%type.

Definition ret {A} (a : A) : io A := ([], Return a).
Definition lift {A} (r : res A) : io A :=
  match r with
  | Ok a => ([], Return a)
  | Raise e => ([], Raised e)
  end.
Definition out_of_fuel {A} : io A := ([], OutOfFuel).
Definition emit (e : event) : io unit := ([e], Return tt).
Definition print (s : string) : io unit := emit (Line s).

Definition bind {A B} (m : io A) (f : A -> io B) : io B :=
  match m with
  | (out, Return a) => let (out', r) := f a in (out ++ out', r)
  | (out, Raised e) => (out, Raised e)
  | (out, OutOfFuel) => (out, OutOfFuel)
  end.

Declare Scope py_scope.
Delimit Scope py_scope with py.
Notation "x <- m ;; k" := (bind m (fun x => k))
  (at level 61, m at next level, right associativity) : py_scope.
Notation "' p <- m ;; k" := (bind m (fun x => match x with p => k end))
  (at level 61, p pattern, m at next level, right associativity) : py_scope.
Notation "m ;;; k" := (bind m (fun _ => k))
  (at level 61, right associativity) : py_scope.
Notation "x <~ m ;; k" := (rbind m (fun x => k))
  (at level 61, m at next level, right associativity) : py_scope.

(** The status the process ends with. *)
Definition exit_status {A} (r : outcome A) : option Z :=
  match r with
  | Return _ => Some 0
  | Raised _ => Some 1
  | OutOfFuel => None
  end.

(* ================================================================== *)
(** ** Python runtime: text, hex and UTF-8 *)

Definition hex_digit (n : Z) : ascii :=
  if n <? 10 then ascii_of_N (Z.to_N (48 + n)) else ascii_of_N (Z.to_N (87 + n)).

(** Value of a hexadecimal digit, either case. *)
Definition hex_value (c : ascii) : option Z :=
  let n := Z.of_N (N_of_ascii c) in
  if (48 <=? n) && (n <=? 57) then Some (n - 48)
  else if (97 <=? n) && (n <=? 102) then Some (n - 87)
  else if (65 <=? n) && (n <=? 70) then Some (n - 55)
  else None.

(** [bytes.hex()] *)
Fixpoint hex (bs : bytes) : string :=
  match bs with
  | [] => EmptyString
  | b :: bs' =>
      let v := Z_of_byte b in
      String (hex_digit (Z.shiftr v 4)) (String (hex_digit (Z.land v 15)) (hex bs'))
  end.

(** ASCII whitespace, which [bytes.fromhex] skips between two bytes. *)
Definition is_space (c : ascii) : bool :=
  let n := N_of_ascii c in
  ((9 <=? n) && (n <=? 13) || (n =? 32))%N.

(** [bytes.fromhex(s)]: two digits a byte, whitespace allowed between bytes;
    [ValueError] on anything else, hence on an odd number of digits. *)
Fixpoint fromhex (s : string) : res bytes :=
  match s with
  | EmptyString => Ok []
  | String c s' =>
      if is_space c then fromhex s'
      else
        match hex_value c, s' with
        | Some hi, String d s'' =>
            match hex_value d with
            | Some lo =>
                match fromhex s'' with
                | Ok bs => Ok (byte_of_Z (16 * hi + lo) :: bs)
                | r => r
                end
            | None => Raise ValueError
            end
        | _, _ => Raise ValueError
        end
  end.

(** The hexadecimal digits of a non-negative integer, most significant
    first; [fuel] bounds the number of digits. *)
Fixpoint hex_digits (fuel : nat) (n : Z) (acc : string) : string :=
  match fuel with
  | O => acc
  | S fuel' =>
      let acc' := String (hex_digit (Z.land n 15)) acc in
      if n <? 16 then acc' else hex_digits fuel' (Z.shiftr n 4) acc'
  end.

Definition hex_of_nonneg (n : Z) : string :=
  hex_digits (S (Z.to_nat (Z.log2 n))) n EmptyString.

(** ['{:02x}'.format(n)] for [n >= 0]: at least two digits, never cut. *)
Definition format_02x (n : Z) : string :=
  let s := hex_of_nonneg n in
  if (String.length s <? 2)%nat then String "0" s else s.

(** [hex(n)] of an [int]. *)
Definition py_hex (n : Z) : string :=
  if n <? 0 then ("-0x" ++ hex_of_nonneg (- n))%string
  else ("0x" ++ hex_of_nonneg n)%string.

(** [str(n)] of an [int]. *)
Definition py_str (n : Z) : string := NilZero.string_of_int (Z.to_int n).

(** [int(s, 16)] on the strings [bytes.hex()] produces: a non-empty run of
    hexadecimal digits; everything else is treated as [ValueError]. *)
Fixpoint int16_digits (s : string) (acc : Z) : res Z :=
  match s with
  | EmptyString => Ok acc
  | String c s' =>
      match hex_value c with
      | Some d => int16_digits s' (16 * acc + d)
      | None => Raise ValueError
      end
  end.

Definition int16 (s : string) : res Z :=
  match s with
  | EmptyString => Raise ValueError
  | _ => int16_digits s 0
  end.

(** A Python 3 [str] as its code points; [len] counts code points. *)
Definition unicode := list Z.

Definition utf8_char (c : Z) : res bytes :=
  if c <? 0 then Raise UnicodeEncodeError
  else if c <? 0x80 then Ok [byte_of_Z c]
  else if c <? 0x800 then
    Ok [byte_of_Z (Z.lor 0xc0 (Z.shiftr c 6)); byte_of_Z (Z.lor 0x80 (Z.land c 0x3f))]
  else if (0xd800 <=? c) && (c <=? 0xdfff) then Raise UnicodeEncodeError
  else if c <? 0x10000 then
    Ok [byte_of_Z (Z.lor 0xe0 (Z.shiftr c 12));
        byte_of_Z (Z.lor 0x80 (Z.land (Z.shiftr c 6) 0x3f));
        byte_of_Z (Z.lor 0x80 (Z.land c 0x3f))]
  else if c <? 0x110000 then
    Ok [byte_of_Z (Z.lor 0xf0 (Z.shiftr c 18));
        byte_of_Z (Z.lor 0x80 (Z.land (Z.shiftr c 12) 0x3f));
        byte_of_Z (Z.lor 0x80 (Z.land (Z.shiftr c 6) 0x3f));
        byte_of_Z (Z.lor 0x80 (Z.land c 0x3f))]
  else Raise UnicodeEncodeError.

(** [s.encode('utf-8')] *)
Fixpoint encode_utf8 (s : unicode) : res bytes :=
  match s with
  | [] => Ok []
  | c :: s' =>
      (b <~ utf8_char c ;; bs <~ encode_utf8 s' ;; Ok (b ++ bs))%py
  end.

(** ASCII text as code points, for literals and examples. *)
Definition unicode_of_string (s : string) : unicode :=
  map (fun a => Z.of_N (N_of_ascii a)) (list_ascii_of_string s).

(** Bytes written to stdout as the text of an output line. *)
Definition string_of_bytes (bs : bytes) : string :=
  string_of_list_ascii (map ascii_of_byte bs).

(** How [print] renders a [str] on a UTF-8 stdout. *)
Definition stdout_text (s : unicode) : string :=
  match encode_utf8 s with
  | Ok bs => string_of_bytes bs
  | _ => EmptyString
  end.

(* ================================================================== *)
(** ** Python runtime: [struct.pack] *)

(** [n] little-endian bytes of [v]. *)
Fixpoint le_bytes (n : nat) (v : Z) : bytes :=
  match n with
  | O => []
  | S k => byte_of_Z v :: le_bytes k (Z.shiftr v 8)
  end.

(** [n] big-endian bytes of [v]. *)
Definition be_bytes (n : nat) (v : Z) : bytes := rev (le_bytes n v).

(** The unsigned integer a byte string denotes, most significant byte first. *)
Definition be_int (bs : bytes) : Z :=
  fold_left (fun acc b => 256 * acc + Z_of_byte b) bs 0.

(** [struct.pack("<I", v)]: [struct.error] outside [0, 2^32). *)
Definition pack_I (v : Z) : res bytes :=
  if (0 <=? v) && (v <? 2 ^ 32) then Ok (le_bytes 4 v) else Raise StructError.

(** [struct.pack(">L", v)], [struct.pack(">B", v)] *)
Definition pack_BE_L (v : Z) : res bytes :=
  if (0 <=? v) && (v <? 2 ^ 32) then Ok (be_bytes 4 v) else Raise StructError.

Definition pack_B (v : Z) : res bytes :=
  if (0 <=? v) && (v <? 256) then Ok [byte_of_Z v] else Raise StructError.

(** [struct.pack("<q", v)]: two's complement, [struct.error] outside
    [-2^63, 2^63). *)
Definition pack_q (v : Z) : res bytes :=
  if (- 2 ^ 63 <=? v) && (v <? 2 ^ 63) then Ok (le_bytes 8 v) else Raise StructError.

(** [struct.pack("<qqqq", a, b, c, d)] *)
Definition pack_qqqq (a b c d : Z) : res bytes :=
  (x <~ pack_q a ;; y <~ pack_q b ;; z <~ pack_q c ;; t <~ pack_q d ;;
   Ok (x ++ y ++ z ++ t))%py.

(** [len(s)] of a [str]: the number of code points. *)
Definition len (s : unicode) : nat := List.length s.

(** [data[:-4]] *)
Definition drop_last4 (data : bytes) : bytes := firstn (List.length data - 4) data.

Definition str_in (s : string) (l : list string) : bool := existsb (String.eqb s) l.

(** [x < y] between an [int] and the [int]-or-[float] target; Python compares
    the two exactly. *)
Definition Qltb (x y : Q) : bool := negb (Qle_bool y x).

(* ================================================================== *)
(** ** The Construct 2.x library, as far as the program uses it *)

Module Construct.

(** The field constructors the program imports. *)
Inductive con : Type :=
| Bytes (length : nat)
| StaticField (length : nat)
| Byte
| UBInt32.

(** What a field holds in a container. *)
Inductive value : Type :=
| VBytes (b : bytes)
| VInt (n : Z).

(** [Struct(name, field, ...)]: the named fields in order. *)
Definition Struct := list (string * con).

(** The attribute container [parse] returns and [build] reads. *)
Definition Container := list (string * value).

Definition sizeof (c : con) : nat :=
  match c with
  | Bytes n | StaticField n => n
  | Byte => 1
  | UBInt32 => 4
  end.

Definition parse_con (c : con) (data : bytes) : value :=
  match c with
  | Bytes _ | StaticField _ => VBytes data
  | Byte | UBInt32 => VInt (be_int data)
  end.

(** [st.parse(stream)]: each field reads its bytes; [FieldError] when the
    stream ends early.  Bytes left over are ignored. *)
Fixpoint parse (st : Struct) (stream : bytes) : res Container :=
  match st with
  | [] => Ok []
  | (name, c) :: st' =>
      if (List.length stream <? sizeof c)%nat then Raise FieldError
      else
        match parse st' (skipn (sizeof c) stream) with
        | Ok rest => Ok ((name, parse_con c (firstn (sizeof c) stream)) :: rest)
        | r => r
        end
  end.

(** [obj.name = v] *)
Fixpoint setattr (obj : Container) (name : string) (v : value) : Container :=
  match obj with
  | [] => [(name, v)]
  | (k, x) :: obj' =>
      if String.eqb k name then (k, v) :: obj' else (k, x) :: setattr obj' name v
  end.

(** [obj.name] *)
Fixpoint getattr (obj : Container) (name : string) : res value :=
  match obj with
  | [] => Raise AttributeError
  | (k, x) :: obj' => if String.eqb k name then Ok x else getattr obj' name
  end.

(** Building one field: a bytes field checks the length of what it is given,
    a number field packs it; a [struct.error] surfaces as [FieldError]. *)
Definition build_con (c : con) (v : value) : res bytes :=
  match c, v with
  | (Bytes n | StaticField n), VBytes b =>
      if (List.length b =? n)%nat then Ok b else Raise FieldError
  | (Bytes _ | StaticField _), VInt _ => Raise TypeError
  | Byte, VInt z =>
      match pack_B z with Ok b => Ok b | _ => Raise FieldError end
  | UBInt32, VInt z =>
      match pack_BE_L z with Ok b => Ok b | _ => Raise FieldError end
  | (Byte | UBInt32), VBytes _ => Raise FieldError
  end.

(** [st.build(obj)] *)
Fixpoint build (st : Struct) (obj : Container) : res bytes :=
  match st with
  | [] => Ok []
  | (name, c) :: st' =>
      (v <~ getattr obj name ;;
       b <~ build_con c v ;;
       rest <~ build st' obj ;;
       Ok (b ++ rest))%py
  end.

End Construct.

(* ================================================================== *)
(** ** The hash libraries the program imports *)

(** [hashlib] and [scrypt] are imported at the top of the file; the modules
    [xcoin_hash], [x13_hash] and [x15_hash] are imported on demand and may be
    missing ([None]: the [import] raises [ImportError]). *)
Record Libs : Type := {
  sha256 : bytes -> bytes;
  scrypt_hash : bytes -> bytes -> Z -> Z -> Z -> Z -> bytes;
  xcoin_hash : option (bytes -> bytes);
  x13_hash : option (bytes -> bytes);
  x15_hash : option (bytes -> bytes)
}.

(* ================================================================== *)
(** ** genesis.py *)

(** The parsed command line, after [get_args]. *)
Module Options.
Record t : Type := {
  time : Z;
  timestamp : unicode;
  nonce : Z;
  algorithm : string;
  pubkey : string;
  value : Z;
  bits : Z
}.
End Options.

(** The default [get_args] gives [options.bits] when [-b] is absent or 0. *)
Definition get_args_bits (bits : option Z) (algorithm : string) : Z :=
  match bits with
  | Some b =>
      if negb (b =? 0) then b
      else if str_in algorithm ["scrypt"; "X11"; "X13"; "X15"]%string then 0x1e0ffff0
      else 0x1d00ffff
  | None =>
      if str_in algorithm ["scrypt"; "X11"; "X13"; "X15"]%string then 0x1e0ffff0
      else 0x1d00ffff
  end.

Definition supported_algorithms : list string :=
  ["SHA256"; "scrypt"; "X11"; "X13"; "X15"]%string.

Definition get_algorithm (options : Options.t) : res string :=
  if str_in (Options.algorithm options) supported_algorithms
  then Ok (Options.algorithm options)
  else Raise (SystemExit
    "Error: Given algorithm must be one of: ['SHA256', 'scrypt', 'X11', 'X13', 'X15']").

Definition create_input_script (psz_timestamp : unicode) : io bytes :=
  let psz_prefix :=
    if 76 <? Z.of_nat (len psz_timestamp) then "4c"%string else ""%string in
  let length_hex := format_02x (Z.of_nat (len psz_timestamp)) in
  let script_prefix := ("04ffff001d0104" ++ psz_prefix ++ length_hex)%string in
  (encoded <- lift (encode_utf8 psz_timestamp) ;;
   let timestamp_hex := hex encoded in
   let full_script_hex := (script_prefix ++ timestamp_hex)%string in
   print full_script_hex ;;;
   lift (fromhex full_script_hex))%py.

Definition create_output_script (pubkey : string) : res bytes :=
  let script_len := "41"%string in
  let OP_CHECKSIG := "ac"%string in
  fromhex (script_len ++ pubkey ++ OP_CHECKSIG)%string.

Definition transaction (input_script_len : nat) : Construct.Struct :=
  [ ("version", Construct.Bytes 4);
    ("num_inputs", Construct.Byte);
    ("prev_output", Construct.StaticField 32);
    ("prev_out_idx", Construct.UBInt32);
    ("input_script_len", Construct.Byte);
    ("input_script", Construct.Bytes input_script_len);
    ("sequence", Construct.UBInt32);
    ("num_outputs", Construct.Byte);
    ("out_value", Construct.Bytes 8);
    ("output_script_len", Construct.Byte);
    ("output_script", Construct.Bytes 0x43);
    ("locktime", Construct.UBInt32) ]%string.

Definition create_transaction (input_script output_script : bytes)
    (options : Options.t) : res bytes :=
  let transaction := transaction (List.length input_script) in
  let dummy_length := (127 + List.length input_script)%nat in
  (tx <~ Construct.parse transaction (repeat x00 dummy_length) ;;
   version <~ pack_I 1 ;;
   let tx := Construct.setattr tx "version" (Construct.VBytes version) in
   let tx := Construct.setattr tx "num_inputs" (Construct.VInt 1) in
   prev_output <~ pack_qqqq 0 0 0 0 ;;
   let tx := Construct.setattr tx "prev_output" (Construct.VBytes prev_output) in
   let tx := Construct.setattr tx "prev_out_idx" (Construct.VInt 0xFFFFFFFF) in
   let tx := Construct.setattr tx "input_script_len"
               (Construct.VInt (Z.of_nat (List.length input_script))) in
   let tx := Construct.setattr tx "input_script" (Construct.VBytes input_script) in
   let tx := Construct.setattr tx "sequence" (Construct.VInt 0xFFFFFFFF) in
   let tx := Construct.setattr tx "num_outputs" (Construct.VInt 1) in
   out_value <~ pack_q (Options.value options) ;;
   let tx := Construct.setattr tx "out_value" (Construct.VBytes out_value) in
   let tx := Construct.setattr tx "output_script_len" (Construct.VInt 0x43) in
   let tx := Construct.setattr tx "output_script" (Construct.VBytes output_script) in
   let tx := Construct.setattr tx "locktime" (Construct.VInt 0) in
   Construct.build transaction tx)%py.

Definition block_header : Construct.Struct :=
  [ ("version", Construct.Bytes 4);
    ("hash_prev_block", Construct.Bytes 32);
    ("hash_merkle_root", Construct.Bytes 32);
    ("time", Construct.Bytes 4);
    ("bits", Construct.Bytes 4);
    ("nonce", Construct.Bytes 4) ]%string.

Definition create_block_header (hash_merkle_root : bytes) (time_value bits nonce : Z)
    : res bytes :=
  (genesisblock <~ Construct.parse block_header (repeat x00 80) ;;
   version <~ pack_I 1 ;;
   let genesisblock := Construct.setattr genesisblock "version" (Construct.VBytes version) in
   hash_prev_block <~ pack_qqqq 0 0 0 0 ;;
   let genesisblock :=
     Construct.setattr genesisblock "hash_prev_block" (Construct.VBytes hash_prev_block) in
   let genesisblock :=
     Construct.setattr genesisblock "hash_merkle_root" (Construct.VBytes hash_merkle_root) in
   time <~ pack_I time_value ;;
   let genesisblock := Construct.setattr genesisblock "time" (Construct.VBytes time) in
   bits <~ pack_I bits ;;
   let genesisblock := Construct.setattr genesisblock "bits" (Construct.VBytes bits) in
   nonce <~ pack_I nonce ;;
   let genesisblock := Construct.setattr genesisblock "nonce" (Construct.VBytes nonce) in
   Construct.build block_header genesisblock)%py.

(** [int(header_hash.hex(), 16) < target] *)
Definition is_genesis_hash (header_hash : bytes) (target : Q) : res bool :=
  (v <~ int16 (hex header_hash) ;; Ok (Qltb (inject_Z v) target))%py.

(** The timing and the text of the report are left out: what is kept is that
    something is written exactly when [nonce % 1000000 == 999999].  The two
    divisions of the report are floating-point divisions by clock
    differences; the clock is taken to advance between two reports, so that
    they are defined. *)
Definition calculate_hashrate (nonce : Z) : io unit :=
  if nonce mod 1000000 =? 999999 then emit (Progress nonce) else ret tt.

(** The target of line 142.  [2 ** k] is a Python [float] when [k < 0] and
    the product with it is one too; for every [bits >= 0] these floats are
    exact (at most 24 significant bits, exponent at least -24), so the
    rational is the number Python computes. *)
Definition decode_target (bits : Z) : Q :=
  (inject_Z (Z.land bits 0xffffff) * 2 ^ (8 * (Z.shiftr bits 24 - 3)))%Q.

(** The nonce update of lines 152-154:
    [data_block[:-4] + struct.pack("<I", nonce)]. *)
Definition set_nonce (data_block : bytes) (nonce : Z) : res bytes :=
  (packed <~ pack_I nonce ;; Ok (drop_last4 data_block ++ packed))%py.

Definition print_block_info (options : Options.t) (hash_merkle_root : bytes) : io unit :=
  (print ("algorithm: " ++ Options.algorithm options) ;;;
   print ("merkle hash: " ++ hex (rev hash_merkle_root)) ;;;
   print ("pszTimestamp: " ++ stdout_text (Options.timestamp options)) ;;;
   print ("pubkey: " ++ Options.pubkey options) ;;;
   print ("time: " ++ py_str (Options.time options)) ;;;
   print ("bits: " ++ py_hex (Options.bits options)))%py%string.

Definition announce_found_genesis (genesis_hash : bytes) (nonce : Z) : io unit :=
  (print "genesis hash found!" ;;;
   print ("nonce: " ++ py_str nonce) ;;;
   print ("genesis hash: " ++ hex genesis_hash))%py%string.

Section Program.

Variable L : Libs.

Definition generate_hashes_from_block (data_block : bytes) (algorithm : string)
    : res (bytes * bytes) :=
  let sha256_hash := rev (sha256 L (sha256 L data_block)) in
  if String.eqb algorithm "scrypt" then
    Ok (sha256_hash, rev (scrypt_hash L data_block data_block 1024 1 1 32))
  else if String.eqb algorithm "SHA256" then
    Ok (sha256_hash, sha256_hash)
  else if String.eqb algorithm "X11" then
    match xcoin_hash L with
    | None => Raise (SystemExit "Cannot run X11 algorithm: module xcoin_hash not found")
    | Some getPoWHash => Ok (sha256_hash, rev (getPoWHash data_block))
    end
  else if String.eqb algorithm "X13" then
    match x13_hash L with
    | None => Raise (SystemExit "Cannot run X13 algorithm: module x13_hash not found")
    | Some getPoWHash => Ok (sha256_hash, rev (getPoWHash data_block))
    end
  else if String.eqb algorithm "X15" then
    match x15_hash L with
    | None => Raise (SystemExit "Cannot run X15 algorithm: module x15_hash not found")
    | Some getPoWHash => Ok (sha256_hash, rev (getPoWHash data_block))
    end
  else Ok (sha256_hash, []).

(** The [while True] loop of [generate_hash]; [fuel] bounds the number of
    iterations. *)
Fixpoint search (fuel : nat) (algorithm : string) (target : Q)
    (data_block : bytes) (nonce : Z) : io (bytes * Z) :=
  match fuel with
  | O => out_of_fuel
  | S fuel' =>
      ('(sha256_hash, header_hash) <-
         lift (generate_hashes_from_block data_block algorithm) ;;
       calculate_hashrate nonce ;;;
       found <- lift (is_genesis_hash header_hash target) ;;
       if found : bool then
         if str_in algorithm ["X11"; "X13"; "X15"]%string
         then ret (header_hash, nonce)
         else ret (sha256_hash, nonce)
       else
         let nonce := nonce + 1 in
         data_block <- lift (set_nonce data_block nonce) ;;
         search fuel' algorithm target data_block nonce)%py
  end.

Definition generate_hash (fuel : nat) (data_block : bytes) (algorithm : string)
    (start_nonce bits : Z) : io (bytes * Z) :=
  (print "Searching for genesis hash.." ;;;
   let nonce := start_nonce in
   let target := decode_target bits in
   search fuel algorithm target data_block nonce)%py.

Definition main (fuel : nat) (options : Options.t) : io unit :=
  (algorithm <- lift (get_algorithm options) ;;
   input_script <- create_input_script (Options.timestamp options) ;;
   output_script <- lift (create_output_script (Options.pubkey options)) ;;
   tx <- lift (create_transaction input_script output_script options) ;;
   let hash_merkle_root := sha256 L (sha256 L tx) in
   print_block_info options hash_merkle_root ;;;
   block_header <- lift (create_block_header hash_merkle_root (Options.time options)
                           (Options.bits options) (Options.nonce options)) ;;
   '(genesis_hash, nonce) <-
     generate_hash fuel block_header algorithm (Options.nonce options)
       (Options.bits options) ;;
   announce_found_genesis genesis_hash nonce)%py.

End Program.

(* ================================================================== *)
(** ** The libraries as installed: SHA-256 and scrypt

    [hashlib.sha256] follows FIPS 180-4 and [scrypt.hash] RFC 7914 (with
    HMAC-SHA-256 of RFC 2104 and PBKDF2 of RFC 8018); both are written out
    here so that the program can be run on concrete headers. *)

Module SHA256.

Definition w32 (x : Z) : Z := Z.land x 0xffffffff.
Definition add32 (x y : Z) : Z := w32 (x + y).
Definition rotr (n x : Z) : Z :=
  Z.lor (Z.shiftr x n) (w32 (Z.shiftl x (32 - n))).

Definition Ch (x y z : Z) : Z :=
  Z.lxor (Z.land x y) (Z.land (Z.lxor x 0xffffffff) z).
Definition Maj (x y z : Z) : Z :=
  Z.lxor (Z.lxor (Z.land x y) (Z.land x z)) (Z.land y z).
Definition Sum0 (x : Z) : Z := Z.lxor (Z.lxor (rotr 2 x) (rotr 13 x)) (rotr 22 x).
Definition Sum1 (x : Z) : Z := Z.lxor (Z.lxor (rotr 6 x) (rotr 11 x)) (rotr 25 x).
Definition sig0 (x : Z) : Z := Z.lxor (Z.lxor (rotr 7 x) (rotr 18 x)) (Z.shiftr x 3).
Definition sig1 (x : Z) : Z := Z.lxor (Z.lxor (rotr 17 x) (rotr 19 x)) (Z.shiftr x 10).

(** Big-endian 32-bit words of a byte string (a trailing partial word is
    dropped). *)
Fixpoint be_words (bs : bytes) : list Z :=
  match bs with
  | a :: b :: c :: d :: rest => be_int [a; b; c; d] :: be_words rest
  | _ => []
  end.

Definition words_of_hex (s : string) : list Z :=
  match fromhex s with
  | Ok bs => be_words bs
  | _ => []
  end.

Definition K : list Z := words_of_hex
  "428a2f98 71374491 b5c0fbcf e9b5dba5   3956c25b 59f111f1 923f82a4 ab1c5ed5
   d807aa98 12835b01 243185be 550c7dc3   72be5d74 80deb1fe 9bdc06a7 c19bf174
   e49b69c1 efbe4786 0fc19dc6 240ca1cc   2de92c6f 4a7484aa 5cb0a9dc 76f988da
   983e5152 a831c66d b00327c8 bf597fc7   c6e00bf3 d5a79147 06ca6351 14292967
   27b70a85 2e1b2138 4d2c6dfc 53380d13   650a7354 766a0abb 81c2c92e 92722c85
   a2bfe8a1 a81a664b c24b8b70 c76c51a3   d192e819 d6990624 f40e3585 106aa070
   19a4c116 1e376c08 2748774c 34b0bcb5   391c0cb3 4ed8aa4a 5b9cca4f 682e6ff3
   748f82ee 78a5636f 84c87814 8cc70208   90befffa a4506ceb bef9a3f7 c67178f2".

Definition state : Type := (Z * Z * Z * Z * Z * Z * Z * Z)%type.

Definition H0 : state :=
  (0x6a09e667, 0xbb67ae85, 0x3c6ef372, 0xa54ff53a,
   0x510e527f, 0x9b05688c, 0x1f83d9ab, 0x5be0cd19).

(** The message schedule: [n] more words from the window of the last 16. *)
Fixpoint schedule (n : nat) (window : list Z) : list Z :=
  match n, window with
  | S n', w0 :: rest =>
      let w1 := nth 0 rest 0 in
      let w9 := nth 8 rest 0 in
      let w14 := nth 13 rest 0 in
      w0 :: schedule n' (rest ++ [add32 (add32 (sig1 w14) w9) (add32 (sig0 w1) w0)])
  | _, _ => []
  end.

Definition round (s : state) (kw : Z * Z) : state :=
  let '(a, b, c, d, e, f, g, h) := s in
  let t1 := add32 (add32 (add32 (add32 h (Sum1 e)) (Ch e f g)) (fst kw)) (snd kw) in
  let t2 := add32 (Sum0 a) (Maj a b c) in
  (add32 t1 t2, a, b, c, add32 d t1, e, f, g).

Definition compress (s : state) (block : bytes) : state :=
  let '(a, b, c, d, e, f, g, h) := s in
  let '(a', b', c', d', e', f', g', h') :=
    fold_left round (combine K (schedule 64 (be_words block))) s in
  (add32 a a', add32 b b', add32 c c', add32 d d',
   add32 e e', add32 f f', add32 g g', add32 h h').

(** The message followed by [80], zeros and its length in bits, to a whole
    number of 64-byte blocks. *)
Definition pad (msg : bytes) : bytes :=
  let n := Z.of_nat (List.length msg) in
  msg ++ [x80] ++ repeat x00 (Z.to_nat ((55 - n) mod 64)) ++ be_bytes 8 (8 * n).

Fixpoint blocks (n : nat) (s : state) (data : bytes) : state :=
  match n with
  | O => s
  | S n' => blocks n' (compress s (firstn 64 data)) (skipn 64 data)
  end.

Definition digest (msg : bytes) : bytes :=
  let data := pad msg in
  let '(a, b, c, d, e, f, g, h) := blocks (List.length data / 64) H0 data in
  be_bytes 4 a ++ be_bytes 4 b ++ be_bytes 4 c ++ be_bytes 4 d ++
  be_bytes 4 e ++ be_bytes 4 f ++ be_bytes 4 g ++ be_bytes 4 h.

End SHA256.

Module Scrypt.

Definition xor_bytes (a b : bytes) : bytes :=
  map (fun p => byte_of_Z (Z.lxor (Z_of_byte (fst p)) (Z_of_byte (snd p)))) (combine a b).

(** HMAC-SHA-256 *)
Definition hmac (key msg : bytes) : bytes :=
  let key := if (64 <? List.length key)%nat then SHA256.digest key else key in
  let key := key ++ repeat x00 (64 - List.length key) in
  let ipad := xor_bytes key (repeat x36 64) in
  let opad := xor_bytes key (repeat x5c 64) in
  SHA256.digest (opad ++ SHA256.digest (ipad ++ msg)).

(** PBKDF2-HMAC-SHA-256 with one iteration: blocks [1 .. n], cut to [dklen]. *)
Fixpoint pbkdf2_blocks (password salt : bytes) (i : Z) (n : nat) : bytes :=
  match n with
  | O => []
  | S n' => hmac password (salt ++ be_bytes 4 i) ++ pbkdf2_blocks password salt (i + 1) n'
  end.

Definition pbkdf2 (password salt : bytes) (dklen : nat) : bytes :=
  firstn dklen (pbkdf2_blocks password salt 1 ((dklen + 31) / 32)).

(** The Salsa20 core works on 32-bit words; they are held in machine
    integers, masked to 32 bits after every addition and shift. *)
Definition mask32 : int := 0xffffffff%uint63.
Definition add32 (x y : int) : int := Uint63.land (Uint63.add x y) mask32.
Definition rotl (x n : int) : int :=
  Uint63.lor (Uint63.land (Uint63.lsl x n) mask32) (Uint63.lsr x (Uint63.sub 32 n)).

Fixpoint set_word (x : list int) (i : nat) (v : int) : list int :=
  match x, i with
  | [], _ => []
  | _ :: rest, O => v :: rest
  | w :: rest, S i' => w :: set_word rest i' v
  end.

Definition word (x : list int) (i : nat) : int := nth i x 0%uint63.

(** [x[t] ^= R(x[a] + x[b], k)] on a list of sixteen words. *)
Definition step (x : list int) (t a b : nat) (k : int) : list int :=
  set_word x t (Uint63.lxor (word x t) (rotl (add32 (word x a) (word x b)) k)).

(** The Salsa20 quarter round on the words at [a], [b], [c], [d]. *)
Definition quarter (x : list int) (a b c d : nat) : list int :=
  step (step (step (step x b a d 7%uint63) c b a 9%uint63) d c b 13%uint63)
    a d c 18%uint63.

(** A column round followed by a row round. *)
Definition column_round (x : list int) : list int :=
  quarter (quarter (quarter (quarter x 0 4 8 12) 5 9 13 1) 10 14 2 6) 15 3 7 11.

Definition row_round (x : list int) : list int :=
  quarter (quarter (quarter (quarter x 0 1 2 3) 5 6 7 4) 10 11 8 9) 15 12 13 14.

Definition double_round (x : list int) : list int := row_round (column_round x).

(** Salsa20/8 on sixteen words. *)
Definition salsa20_8 (input : list Z) : list Z :=
  let i := map Uint63.of_Z input in
  let x := double_round (double_round (double_round (double_round i))) in
  map (fun p => Uint63.to_Z (add32 (fst p) (snd p))) (combine x i).

Definition xor_words (a b : list Z) : list Z :=
  map (fun p => Z.lxor (fst p) (snd p)) (combine a b).

(** scryptBlockMix on [2r] blocks of sixteen words: the chained blocks
    [Y0 .. Y(2r-1)], returned as the even ones followed by the odd ones. *)
Definition mix_link (acc : list Z * list (list Z)) (b : list Z)
    : list Z * list (list Z) :=
  (fun y => (y, snd acc ++ [y])) (salsa20_8 (xor_words (fst acc) b)).

Definition mix_chain (x : list Z) (bs : list (list Z)) : list (list Z) :=
  snd (fold_left mix_link bs (x, [])).

Fixpoint evens {A} (l : list A) : list A :=
  match l with
  | a :: _ :: l' => a :: evens l'
  | a :: [] => [a]
  | [] => []
  end.

Definition odds {A} (l : list A) : list A :=
  match l with
  | _ :: l' => evens l'
  | [] => []
  end.

Definition block_mix (bs : list (list Z)) : list (list Z) :=
  let ys := mix_chain (last bs []) bs in
  evens ys ++ odds ys.

Definition xor_blocks (a b : list (list Z)) : list (list Z) :=
  map (fun p => xor_words (fst p) (snd p)) (combine a b).

(** First loop of scryptROMix: [V(i) = X; X = BlockMix(X)], [n] times. *)
Fixpoint fill (n : nat) (x : list (list Z)) : list (list (list Z)) * list (list Z) :=
  match n with
  | O => ([], x)
  | S n' => let (v, x') := fill n' (block_mix x) in (x :: v, x')
  end.

(** Integerify: the last block of [X] as a little-endian number; modulo a
    power of two below [2^32] its first word decides. *)
Definition integerify (x : list (list Z)) : Z := nth 0 (last x []) 0.

(** Second loop: [j = Integerify(X) mod N; X = BlockMix(X xor V(j))]. *)
Fixpoint stir (n : nat) (N : Z) (v : list (list (list Z))) (x : list (list Z))
    : list (list Z) :=
  match n with
  | O => x
  | S n' =>
      let j := Z.to_nat (integerify x mod N) in
      stir n' N v (block_mix (xor_blocks x (nth j v [])))
  end.

Fixpoint le_words (bs : bytes) : list Z :=
  match bs with
  | a :: b :: c :: d :: rest => be_int [d; c; b; a] :: le_words rest
  | _ => []
  end.

Fixpoint chunks {A} (n : nat) (size : nat) (l : list A) : list (list A) :=
  match n with
  | O => []
  | S n' => firstn size l :: chunks n' size (skipn size l)
  end.

Definition romix (r : nat) (N : Z) (b : bytes) : bytes :=
  let x := chunks (2 * r) 16 (le_words b) in
  let (v, x) := fill (Z.to_nat N) x in
  let x := stir (Z.to_nat N) N v x in
  flat_map (le_bytes 4) (List.concat x).

(** [scrypt.hash(password, salt, N, r, p, buflen)] *)
Definition hash (password salt : bytes) (N r p buflen : Z) : bytes :=
  let r := Z.to_nat r in
  let p := Z.to_nat p in
  let b := pbkdf2 password salt (p * 128 * r) in
  let b := flat_map (romix r N) (chunks p (128 * r) b) in
  pbkdf2 password b (Z.to_nat buflen).

End Scrypt.

(** The libraries on a machine without the X11, X13 and X15 modules. *)
Definition installed : Libs := {|
  sha256 := SHA256.digest;
  scrypt_hash := Scrypt.hash;
  xcoin_hash := None;
  x13_hash := None;
  x15_hash := None
|}.

(* ================================================================== *)
(** ** Notions the statements use *)

(** [reverse(SHA256(SHA256(data)))], the first component of
    [generate_hashes_from_block]. *)
Definition sha256d_digest (L : Libs) (data : bytes) : bytes :=
  rev (sha256 L (sha256 L data)).

(** The proof-of-work digest: the second component. *)
Definition pow_digest (L : Libs) (data : bytes) (algorithm : string) : res bytes :=
  match generate_hashes_from_block L data algorithm with
  | Ok (_, header_hash) => Ok header_hash
  | Raise e => Raise e
  end.

(** The block the loop hashes when its counter is [n]: the block it was
    given while [n] is the start nonce, and after that the block with its
    last four bytes replaced by [n]. *)
Definition tested_block (data_block : bytes) (start n : Z) : bytes :=
  if n =? start then data_block else drop_last4 data_block ++ le_bytes 4 n.

(** Whether the module an algorithm imports on demand is missing. *)
Definition backend_missing (L : Libs) (algorithm : string) : bool :=
  if String.eqb algorithm "X11" then
    match xcoin_hash L with None => true | Some _ => false end
  else if String.eqb algorithm "X13" then
    match x13_hash L with None => true | Some _ => false end
  else if String.eqb algorithm "X15" then
    match x15_hash L with None => true | Some _ => false end
  else false.

(** What [calculate_hashrate] writes for a nonce. *)
Definition progress (nonce : Z) : list event :=
  if nonce mod 1000000 =? 999999 then [Progress nonce] else [].

(** Whether a digest is used as the returned hash: the test of line 148. *)
Definition returns_pow (algorithm : string) : bool :=
  str_in algorithm ["X11"; "X13"; "X15"]%string.

(** The part of [main] between [get_algorithm] and [generate_hash]: the
    scripts, the transaction, the block information and the header. *)
Definition setup (L : Libs) (options : Options.t) : io bytes :=
  (input_script <- create_input_script (Options.timestamp options) ;;
   output_script <- lift (create_output_script (Options.pubkey options)) ;;
   tx <- lift (create_transaction input_script output_script options) ;;
   let hash_merkle_root := sha256 L (sha256 L tx) in
   print_block_info options hash_merkle_root ;;;
   lift (create_block_header hash_merkle_root (Options.time options)
           (Options.bits options) (Options.nonce options)))%py.

(** The six lines [print_block_info] prints. *)
Definition block_info (options : Options.t) (hash_merkle_root : bytes) : list event :=
  fst (print_block_info options hash_merkle_root).

(** The message [sys.exit] is given when the module of an algorithm is
    missing. *)
Definition missing_message (algorithm : string) : string :=
  if String.eqb algorithm "X11"
  then "Cannot run X11 algorithm: module xcoin_hash not found"
  else if String.eqb algorithm "X13"
  then "Cannot run X13 algorithm: module x13_hash not found"
  else "Cannot run X15 algorithm: module x15_hash not found".

(** The two configuration errors and their messages. *)
Definition unsupported_message : string :=
  "Error: Given algorithm must be one of: ['SHA256', 'scrypt', 'X11', 'X13', 'X15']".

Definition configuration_error (L : Libs) (options : Options.t) : option string :=
  if negb (str_in (Options.algorithm options) supported_algorithms)
  then Some unsupported_message
  else if backend_missing L (Options.algorithm options)
  then Some (missing_message (Options.algorithm options))
  else None.

(** The [k] nonces from [start] on. *)
Definition nonces (start : Z) (k : nat) : list Z :=
  map (fun i => start + Z.of_nat i) (seq 0 k).

(** The script that announces [count] as the length of the pushed data and
    carries [data]. *)
Definition push_script (count : nat) (data : bytes) : bytes :=
  [x04; xff; xff; x00; x1d; x01; x04]
  ++ (if (76 <? count)%nat then [x4c] else [])
  ++ [byte_of_Z (Z.of_nat count)]
  ++ data.

(** A character [bytes.fromhex] accepts somewhere: a digit or a blank. *)
Definition hex_or_space (c : ascii) : bool :=
  is_space c || match hex_value c with Some _ => true | None => false end.

(** The number of bytes a struct reads or writes. *)
Fixpoint struct_size (st : Construct.Struct) : nat :=
  match st with
  | [] => 0
  | (_, c) :: st' => Construct.sizeof c + struct_size st'
  end.

(** The decoder as the specification words it: mantissa and exponent by
    division, the power taken in the rationals. *)
Definition spec_decode (bits : Z) : Q :=
  let mantissa := bits mod 2 ^ 24 in
  let exponent := bits / 2 ^ 24 in
  (inject_Z mantissa * Qpower 2 (8 * (exponent - 3)))%Q.

(** The layouts the specification gives. *)
Definition spec_input_script (encoded : bytes) : bytes :=
  [x04; xff; xff; x00; x1d; x01; x04]
  ++ (if (76 <? List.length encoded)%nat then [x4c] else [])
  ++ [byte_of_Z (Z.land (Z.of_nat (List.length encoded)) 0xff)]
  ++ encoded.

Definition spec_transaction (input_script output_script : bytes) (value : Z) : bytes :=
  le_bytes 4 1 ++ [x01] ++ repeat x00 32 ++ [xff; xff; xff; xff]
  ++ [byte_of_Z (Z.of_nat (List.length input_script))] ++ input_script
  ++ [xff; xff; xff; xff] ++ [x01] ++ le_bytes 8 value
  ++ [x43] ++ output_script ++ [x00; x00; x00; x00].

Definition spec_block_header (merkle_root : bytes) (time bits nonce : Z) : bytes :=
  le_bytes 4 1 ++ repeat x00 32 ++ merkle_root
  ++ le_bytes 4 time ++ le_bytes 4 bits ++ le_bytes 4 nonce.

(** The coinbase transaction of a timestamp, a key and a value. *)
Definition coinbase (encoded key : bytes) (value : Z) : bytes :=
  spec_transaction (spec_input_script encoded) ([x41] ++ key ++ [xac]) value.

(* ================================================================== *)
(** ** Concrete inputs *)

Definition bytes_of_hex (s : string) : bytes :=
  match fromhex s with
  | Ok bs => bs
  | _ => []
  end.

Definition ascii_bytes (s : string) : bytes :=
  map byte_of_ascii (list_ascii_of_string s).

(** The program's defaults with Bitcoin's time, started at the nonce of
    Bitcoin's genesis block. *)
Definition bitcoin : Options.t := {|
  Options.time := 1231006505;
  Options.timestamp := unicode_of_string
    "The Times 03/Jan/2009 Chancellor on brink of second bailout for banks";
  Options.nonce := 2083236893;
  Options.algorithm := "SHA256";
  Options.pubkey :=
    "04678afdb0fe5548271967f1a67130b7105cd6a828e03909a67962e0ea1f61deb649f6bc3f4cef38c4f35504e51ec112de5c384df7ba0b8d578a4c702b6bf11d5f";
  Options.value := 5000000000;
  Options.bits := 0x1d00ffff
|}.

Definition bitcoin_header : bytes := bytes_of_hex
  "01000000 0000000000000000000000000000000000000000000000000000000000000000
   3ba3edfd7a7b12b27ac72c3e67768f617fc81bc3888a51323a9fb8aa4b1e5e4a
   29ab5f49 ffff001d 1dac2b7c".

Definition bitcoin_hash : bytes := bytes_of_hex
  "000000000019d6689c085ae165831e934ff763ae46a2a6c172b3f1b60a8ce26f".

(** The header of Litecoin's genesis block (scrypt, bits 0x1e0ffff0, nonce
    2084524493), its identity hash and its proof-of-work hash. *)
Definition litecoin_header : bytes := bytes_of_hex
  "01000000 0000000000000000000000000000000000000000000000000000000000000000
   d9ced4ed1130f7b7faad9be25323ffafa33232a17c3edf6cfd97bee6bafbdd97
   b9aa8e4e f0ff0f1e cd513f7c".

Definition litecoin_hash : bytes := bytes_of_hex
  "12a765e31ffd4059bada1e25190f6e98c99d9714d334efa41a195a7e7e04bfe2".

Definition litecoin_pow : bytes := bytes_of_hex
  "0000050c34a64b415b6b15b37f2216634b5b1669cb9a2e38d76f7213b0671e00".

(** The defaults with the X11 algorithm selected. *)
Definition x11_options : Options.t := {|
  Options.time := 1231006505;
  Options.timestamp := Options.timestamp bitcoin;
  Options.nonce := 0;
  Options.algorithm := "X11";
  Options.pubkey := Options.pubkey bitcoin;
  Options.value := 5000000000;
  Options.bits := 0x1e0ffff0
|}.

(** 256 ASCII characters. *)
Definition long_timestamp : unicode := repeat 0x61 256.

(** The text in the coinbase of Litecoin's genesis block; the apostrophe is
    U+2019, three bytes in UTF-8. *)
Definition litecoin_timestamp : unicode :=
  unicode_of_string "NY Times 05/Oct/2011 Steve Jobs, Apple" ++ [0x2019]
  ++ unicode_of_string "s Visionary, Dies at 56".

(** The P2PK output script of the default public key, and the input script
    of a timestamp of 247 ASCII characters, which is 256 bytes long. *)
Definition bitcoin_output_script : bytes :=
  bytes_of_hex ("41" ++ Options.pubkey bitcoin ++ "ac").

Definition script_256 : bytes := spec_input_script (repeat x61 247).

(** Bitcoin's genesis header with the nonce field set to 0 and to the
    largest nonce. *)
Definition bitcoin_header_0 : bytes := drop_last4 bitcoin_header ++ le_bytes 4 0.

Definition bitcoin_header_max : bytes :=
  drop_last4 bitcoin_header ++ le_bytes 4 4294967295.

(** Bitcoin's genesis header with the nonce field set to 999999, and its
    double SHA-256. *)
Definition bitcoin_header_999999 : bytes :=
  drop_last4 bitcoin_header ++ le_bytes 4 999999.

Definition bitcoin_hash_999999 : bytes := bytes_of_hex
  "8398569995492ebc69ba7ce6b496d66db43efa2c561c7409d08dd9f8268df616".

(** The defaults with a timestamp of 247 ASCII characters, and with a key
    text that is no hexadecimal text. *)
Definition long_timestamp_options : Options.t := {|
  Options.time := 1231006505;
  Options.timestamp := repeat 0x61 247;
  Options.nonce := 0;
  Options.algorithm := "SHA256";
  Options.pubkey := Options.pubkey bitcoin;
  Options.value := 5000000000;
  Options.bits := 0x1d00ffff
|}.

Definition surrogate_options : Options.t := {|
  Options.time := 1231006505;
  Options.timestamp := [0x61; 0xdc80];
  Options.nonce := 0;
  Options.algorithm := "SHA256";
  Options.pubkey := Options.pubkey bitcoin;
  Options.value := 5000000000;
  Options.bits := 0x1d00ffff
|}.


Definition bad_key_options : Options.t := {|
  Options.time := 1231006505;
  Options.timestamp := Options.timestamp bitcoin;
  Options.nonce := 0;
  Options.algorithm := "SHA256";
  Options.pubkey := "0x04";
  Options.value := 5000000000;
  Options.bits := 0x1d00ffff
|}.

(* ================================================================== *)
(** * Properties *)

(** ** Bytes and hexadecimal text *)

Lemma Z_of_byte_range (b : byte) : 0 <= Z_of_byte b < 256.
Proof.
  unfold Z_of_byte. pose proof (Byte.to_N_bounded b). lia.
Qed.

Lemma byte_of_Z_of_byte (b : byte) : byte_of_Z (Z_of_byte b) = b.
Proof. destruct b; reflexivity. Qed.

Lemma byte_of_Z_inj (x y : Z) :
  0 <= x < 256 -> 0 <= y < 256 -> byte_of_Z x = byte_of_Z y -> x = y.
Proof.
  intros Hx Hy. unfold byte_of_Z.
  change 0xff with (Z.ones 8). rewrite !Z.land_ones by lia.
  rewrite !Z.mod_small by lia.
  destruct (Byte.of_N (Z.to_N x)) eqn:Ex; [| apply Byte.of_N_None_iff in Ex; lia].
  destruct (Byte.of_N (Z.to_N y)) eqn:Ey; [| apply Byte.of_N_None_iff in Ey; lia].
  intros ->. apply Byte.to_of_N in Ex, Ey. lia.
Qed.

Lemma append_assoc (a b c : string) : ((a ++ b) ++ c = a ++ (b ++ c))%string.
Proof.
  induction a as [| x a IH]; simpl; [reflexivity | now rewrite IH].
Qed.

Lemma append_nil_r (a : string) : (a ++ "")%string = a.
Proof.
  induction a as [| x a IH]; simpl; [reflexivity | now rewrite IH].
Qed.

Lemma hex_app (a b : bytes) : hex (a ++ b) = (hex a ++ hex b)%string.
Proof.
  induction a as [| x a IH]; simpl; [reflexivity | now rewrite IH].
Qed.

(** [bytes.fromhex] undoes [bytes.hex], byte by byte. *)
Lemma fromhex_hex_cons (b : byte) (s : string) :
  fromhex (hex [b] ++ s) =
  match fromhex s with Ok bs => Ok (b :: bs) | r => r end.
Proof. destruct b; reflexivity. Qed.

Lemma fromhex_hex_app (a : bytes) (s : string) :
  fromhex (hex a ++ s) =
  match fromhex s with Ok bs => Ok (a ++ bs) | r => r end.
Proof.
  induction a as [| b a IH].
  - simpl. now destruct (fromhex s).
  - change (hex (b :: a)) with (hex ([b] ++ a)).
    rewrite hex_app, append_assoc, fromhex_hex_cons, IH.
    now destruct (fromhex s).
Qed.

Lemma fromhex_hex (a : bytes) : fromhex (hex a) = Ok a.
Proof.
  pose proof (fromhex_hex_app a EmptyString) as H.
  rewrite append_nil_r in H. rewrite H. simpl. now rewrite app_nil_r.
Qed.

Lemma hex_value_digit (n : Z) : 0 <= n < 16 -> hex_value (hex_digit n) = Some n.
Proof.
  intros H.
  assert (A : forallb (fun k => match hex_value (hex_digit (Z.of_nat k)) with
                                | Some v => v =? Z.of_nat k
                                | None => false
                                end) (seq 0 16) = true)
    by (vm_compute; reflexivity).
  rewrite forallb_forall in A.
  specialize (A (Z.to_nat n)). rewrite Z2Nat.id in A by lia.
  destruct (hex_value (hex_digit n)) as [v |].
  - f_equal. apply Z.eqb_eq, A, in_seq. lia.
  - assert (false = true) by (apply A, in_seq; lia). discriminate.
Qed.

Lemma nibbles (v : Z) : 16 * Z.shiftr v 4 + Z.land v 15 = v.
Proof.
  rewrite Z.shiftr_div_pow2 by lia. change 15 with (Z.ones 4).
  rewrite Z.land_ones by lia. change (2 ^ 4) with 16.
  pose proof (Z.div_mod v 16). lia.
Qed.

Lemma nibble_hi (v : Z) : 0 <= v < 256 -> 0 <= Z.shiftr v 4 < 16.
Proof.
  intros H. rewrite Z.shiftr_div_pow2 by lia. change (2 ^ 4) with 16.
  split; [apply Z.div_pos; lia | apply Z.div_lt_upper_bound; lia].
Qed.

Lemma nibble_lo (v : Z) : 0 <= v < 256 -> 0 <= Z.land v 15 < 16.
Proof.
  intros H. change 15 with (Z.ones 4). rewrite Z.land_ones by lia.
  apply Z.mod_pos_bound. lia.
Qed.

(** [int(b.hex(), 16)] reads [b] as a big-endian number. *)
Lemma int16_digits_hex (p : bytes) (acc : Z) :
  int16_digits (hex p) acc = Ok (fold_left (fun a b => 256 * a + Z_of_byte b) p acc).
Proof.
  revert acc. induction p as [| b p IH]; intros acc; [reflexivity |].
  pose proof (Z_of_byte_range b) as Hb.
  cbn [hex int16_digits fold_left].
  rewrite !hex_value_digit by (apply nibble_hi || apply nibble_lo; exact Hb).
  rewrite IH. do 2 f_equal.
  pose proof (nibbles (Z_of_byte b)). lia.
Qed.

Lemma int16_hex (p : bytes) : p <> [] -> int16 (hex p) = Ok (be_int p).
Proof.
  intros Hp. destruct p as [| b p]; [congruence |].
  unfold int16, be_int.
  change (hex (b :: p)) with
    (String (hex_digit (Z.shiftr (Z_of_byte b) 4))
       (String (hex_digit (Z.land (Z_of_byte b) 15)) (hex p))).
  cbv iota beta.
  change (String (hex_digit (Z.shiftr (Z_of_byte b) 4))
       (String (hex_digit (Z.land (Z_of_byte b) 15)) (hex p))) with (hex (b :: p)).
  apply int16_digits_hex.
Qed.

Lemma int16_hex_nil : int16 (hex []) = Raise ValueError.
Proof. reflexivity. Qed.

(** Below 256, ['{:02x}'] is the two digits of one byte. *)
Lemma format_02x_byte (n : Z) : 0 <= n < 256 -> format_02x n = hex [byte_of_Z n].
Proof.
  intros H.
  assert (A : forallb (fun k => String.eqb (format_02x (Z.of_nat k))
                                  (hex [byte_of_Z (Z.of_nat k)])) (seq 0 256) = true)
    by (vm_compute; reflexivity).
  rewrite forallb_forall in A.
  specialize (A (Z.to_nat n)).
  rewrite Z2Nat.id in A by lia.
  apply String.eqb_eq, A, in_seq. lia.
Qed.

(** From 256 to 4095 it is three digits, so the script text has an odd
    number of digits. *)
Lemma format_02x_256 : format_02x 256 = "100"%string.
Proof. reflexivity. Qed.

(** ** The hash libraries on published test vectors *)

(** FIPS 180-4, one-block and two-block messages. *)
Example sha256_abc :
  hex (SHA256.digest (ascii_bytes "abc"))
  = "ba7816bf8f01cfea414140de5dae2223b00361a396177a9cb410ff61f20015ad"%string.
Proof. vm_compute. reflexivity. Qed.

Example sha256_two_blocks :
  hex (SHA256.digest
         (ascii_bytes "abcdbcdecdefdefgefghfghighijhijkijkljklmklmnlmnomnopnopq"))
  = "248d6a61d20638b8e5c026930c3e6039a33ce45964ff2167f6ecedd419db06c1"%string.
Proof. vm_compute. reflexivity. Qed.

(** RFC 4231, test case 2. *)
Example hmac_rfc4231 :
  hex (Scrypt.hmac (ascii_bytes "Jefe") (ascii_bytes "what do ya want for nothing?"))
  = "5bdcc146bf60754e6a042426089575c75a003f089d2739839dec58b964ec3843"%string.
Proof. vm_compute. reflexivity. Qed.

(** RFC 7914, section 12: scrypt of the empty password and salt with N = 16,
    r = 1, p = 1. *)
Example scrypt_rfc7914 :
  hex (Scrypt.hash [] [] 16 1 1 64)
  = "77d6576238657b203b19ca42c18a0497f16b4844e3074ae8dfdffa3fede21442fcd0069ded0948f8326a753a0fc81f17e8d3e0fb2e0d3628cf35e20c38d18906"%string.
Proof. vm_compute. reflexivity. Qed.

(** ** The coinbase input script (C2) *)

Lemma script_text (encoded : bytes) (n : Z) :
  n = Z.of_nat (List.length encoded) -> 0 <= n < 256 ->
  ("04ffff001d0104" ++ (if (76 <? n)%Z then "4c" else "") ++ format_02x n ++ hex encoded)%string
  = hex (spec_input_script encoded).
Proof.
  intros -> Hn. unfold spec_input_script.
  rewrite !hex_app, format_02x_byte by exact Hn.
  change 0xff with (Z.ones 8). rewrite Z.land_ones, Z.mod_small by lia.
  replace (76 <? List.length encoded)%nat with (76 <? Z.of_nat (List.length encoded)).
  - destruct (76 <? Z.of_nat (List.length encoded)); reflexivity.
  - destruct (Z.ltb_spec 76 (Z.of_nat (List.length encoded)));
      destruct (Nat.ltb_spec 76 (List.length encoded)); try reflexivity; lia.
Qed.

(** C2, as amended: for a timestamp whose UTF-8 encoding has one byte per
    character (ASCII text) and at most 255 bytes, [create_input_script]
    prints the script in hexadecimal and returns exactly the 7-byte prefix
    04 ff ff 00 1d 01 04, then the marker 4c if and only if the encoding
    exceeds 76 bytes, then one length byte equal to the byte length, then the
    UTF-8 bytes. *)
Theorem create_input_script_layout (psz_timestamp : unicode) (encoded : bytes) :
  encode_utf8 psz_timestamp = Ok encoded ->
  List.length encoded = len psz_timestamp ->
  (List.length encoded <= 255)%nat ->
  create_input_script psz_timestamp
  = ([Line (hex (spec_input_script encoded))], Return (spec_input_script encoded)).
Proof.
  intros Henc Hlen Hmax. unfold create_input_script.
  rewrite Henc, <- Hlen.
  cbn [lift bind print emit app].
  rewrite <- append_assoc, append_assoc.
  rewrite (append_assoc "04ffff001d0104").
  rewrite (script_text encoded (Z.of_nat (List.length encoded))) by (reflexivity || lia).
  rewrite fromhex_hex. reflexivity.
Qed.

Lemma create_input_script_layout_witness :
  encode_utf8 (Options.timestamp bitcoin)
    = Ok (map byte_of_Z (Options.timestamp bitcoin))
  /\ List.length (map byte_of_Z (Options.timestamp bitcoin))
    = len (Options.timestamp bitcoin)
  /\ (List.length (map byte_of_Z (Options.timestamp bitcoin)) <= 255)%nat
  /\ create_input_script (Options.timestamp bitcoin)
    = ([Line (hex (spec_input_script (map byte_of_Z (Options.timestamp bitcoin))))],
       Return (spec_input_script (map byte_of_Z (Options.timestamp bitcoin)))).
Proof.
  assert (H1 : encode_utf8 (Options.timestamp bitcoin)
               = Ok (map byte_of_Z (Options.timestamp bitcoin)))
    by (vm_compute; reflexivity).
  assert (H2 : List.length (map byte_of_Z (Options.timestamp bitcoin))
               = len (Options.timestamp bitcoin)) by (vm_compute; reflexivity).
  assert (H3 : (List.length (map byte_of_Z (Options.timestamp bitcoin)) <= 255)%nat)
    by (apply Nat.leb_le; vm_compute; reflexivity).
  split; [exact H1 | split; [exact H2 | split; [exact H3 |]]].
  exact (create_input_script_layout _ _ H1 H2 H3).
Defined.

(** The script the program prints for Bitcoin's timestamp is the coinbase
    script of Bitcoin's genesis block. *)
Example create_input_script_bitcoin :
  create_input_script (Options.timestamp bitcoin)
  = ([Line "04ffff001d0104455468652054696d65732030332f4a616e2f32303039204368616e63656c6c6f72206f6e206272696e6b206f66207365636f6e64206261696c6f757420666f722062616e6b73"],
     Return (bytes_of_hex "04ffff001d0104455468652054696d65732030332f4a616e2f32303039204368616e63656c6c6f72206f6e206272696e6b206f66207365636f6e64206261696c6f757420666f722062616e6b73")).
Proof. vm_compute. reflexivity. Qed.

(** C2 fails as stated: on 256 ASCII characters the length is not cut to
    one byte.  ['{:02x}'] yields the three digits [100], the script text has
    an odd number of digits and [bytes.fromhex] raises [ValueError]; no
    script with length byte 00 is returned. *)
Lemma create_input_script_no_truncation :
  encode_utf8 long_timestamp = Ok (repeat x61 256)
  /\ snd (create_input_script long_timestamp) = Raised ValueError
  /\ snd (create_input_script long_timestamp)
     <> Return (spec_input_script (repeat x61 256)).
Proof.
  assert (E : snd (create_input_script long_timestamp) = Raised ValueError)
    by (vm_compute; reflexivity).
  split; [vm_compute; reflexivity | split; [exact E | rewrite E; discriminate]].
Qed.

(** The length byte counts characters, not bytes: Litecoin's timestamp has 62
    characters and 64 bytes, and the script carries 3e where Litecoin's
    coinbase has 40. *)
Remark create_input_script_counts_characters :
  exists encoded,
    encode_utf8 litecoin_timestamp = Ok encoded
    /\ List.length encoded = 64%nat
    /\ len litecoin_timestamp = 62%nat
    /\ snd (create_input_script litecoin_timestamp)
       = Return ([x04; xff; xff; x00; x1d; x01; x04] ++ [x3e] ++ encoded).
Proof.
  eexists. split; [vm_compute; reflexivity |].
  split; [| split]; vm_compute; reflexivity.
Qed.

(** ** The difficulty target (C5) *)

Lemma Qpower_2_nonneg (k : Z) : 0 <= k -> (Qpower 2 k == inject_Z (2 ^ k))%Q.
Proof.
  intros H. rewrite Zpower_Qpower by exact H. reflexivity.
Qed.

(** C5: for every 32-bit [bits] the target of line 142 is
    (bits & 0xffffff) * 2^(8*((bits >> 24) - 3)) as an exact number: it is
    what the specification's mantissa/exponent formula gives, an integer
    computed without overflow when the exponent is at least 3, and the exact
    fraction below that; decode(0x1d00ffff) = 0xffff * 2^208 and
    decode(0x1e0ffff0) = 0xffff0 * 2^216. *)
Theorem decode_target_spec (bits : Z) :
  0 <= bits < 2 ^ 32 ->
  (decode_target bits == spec_decode bits)%Q
  /\ (3 <= Z.shiftr bits 24 ->
      (decode_target bits
       == inject_Z (Z.land bits 0xffffff * 2 ^ (8 * (Z.shiftr bits 24 - 3))))%Q)
  /\ (Z.shiftr bits 24 < 3 ->
      (decode_target bits * inject_Z (2 ^ (8 * (3 - Z.shiftr bits 24)))
       == inject_Z (Z.land bits 0xffffff))%Q)
  /\ decode_target 0x1d00ffff = inject_Z (0x00ffff * 2 ^ 208)
  /\ decode_target 0x1d00ffff
     = inject_Z 0x00000000ffff0000000000000000000000000000000000000000000000000000
  /\ decode_target 0x1e0ffff0 = inject_Z (0x0ffff0 * 2 ^ 216).
Proof.
  intros Hb. unfold decode_target, spec_decode.
  split; [| split; [| split; [| split; [| split]]]];
    [ | | | vm_compute; reflexivity ..].
  - rewrite Z.shiftr_div_pow2 by lia.
    change 0xffffff with (Z.ones 24). rewrite Z.land_ones by lia. reflexivity.
  - intros He. rewrite Qpower_2_nonneg by lia.
    rewrite inject_Z_mult. reflexivity.
  - intros He. rewrite <- Qpower_2_nonneg by lia.
    rewrite <- Qmult_assoc, <- Qpower_plus by discriminate.
    replace (8 * (Z.shiftr bits 24 - 3) + 8 * (3 - Z.shiftr bits 24)) with 0 by lia.
    simpl. ring.
Qed.

Lemma decode_target_spec_witness :
  0 <= 0x1d00ffff < 2 ^ 32
  /\ (decode_target 0x1d00ffff == spec_decode 0x1d00ffff)%Q.
Proof.
  assert (H : 0 <= 0x1d00ffff < 2 ^ 32) by (split; [discriminate | reflexivity]).
  split; [exact H | exact (proj1 (decode_target_spec 0x1d00ffff H))].
Defined.

(** Below exponent 3 the target is a fraction: a Python [float]. *)
Example decode_target_fraction : decode_target 0x02000001 = (1 # 256)%Q.
Proof. vm_compute. reflexivity. Qed.

(** ** [struct.pack] and the Construct builders *)

Lemma le_bytes_length (n : nat) (v : Z) : List.length (le_bytes n v) = n.
Proof.
  revert v. induction n as [| n IH]; intros v; simpl; [reflexivity | now rewrite IH].
Qed.

Lemma pack_I_ok (v : Z) : 0 <= v < 2 ^ 32 -> pack_I v = Ok (le_bytes 4 v).
Proof.
  intros [H0 H1]. unfold pack_I.
  apply Z.leb_le in H0. apply Z.ltb_lt in H1. now rewrite H0, H1.
Qed.

Lemma pack_I_error (v : Z) : ~ 0 <= v < 2 ^ 32 -> pack_I v = Raise StructError.
Proof.
  intros H. unfold pack_I.
  destruct (Z.leb_spec 0 v); [| reflexivity].
  destruct (Z.ltb_spec v (2 ^ 32)); [lia | reflexivity].
Qed.

Lemma pack_I_inv (v : Z) (b : bytes) :
  pack_I v = Ok b -> 0 <= v < 2 ^ 32 /\ b = le_bytes 4 v.
Proof.
  unfold pack_I. destruct (Z.leb_spec 0 v); [| discriminate].
  destruct (Z.ltb_spec v (2 ^ 32)); [| discriminate].
  simpl. intros E. injection E as <-. split; [lia | reflexivity].
Qed.

Lemma pack_q_ok (v : Z) : - 2 ^ 63 <= v < 2 ^ 63 -> pack_q v = Ok (le_bytes 8 v).
Proof.
  intros [H0 H1]. unfold pack_q.
  apply Z.leb_le in H0. apply Z.ltb_lt in H1. now rewrite H0, H1.
Qed.

Lemma pack_B_ok (v : Z) : 0 <= v < 256 -> pack_B v = Ok [byte_of_Z v].
Proof.
  intros [H0 H1]. unfold pack_B.
  apply Z.leb_le in H0. apply Z.ltb_lt in H1. now rewrite H0, H1.
Qed.

Lemma skipn_zeros (k m : nat) : skipn k (repeat x00 m) = repeat x00 (m - k).
Proof.
  revert m. induction k as [| k IH]; intros [| m]; simpl; auto.
Qed.

(** Parsing a long enough run of zeros succeeds and yields one attribute
    per field, in order. *)
Lemma parse_zeros (st : Construct.Struct) (m : nat) :
  (struct_size st <= m)%nat ->
  exists obj, Construct.parse st (repeat x00 m) = Ok obj /\ map fst obj = map fst st.
Proof.
  revert m. induction st as [| [name c] st IH]; intros m Hm.
  - exists []. split; reflexivity.
  - simpl in Hm. cbn [Construct.parse].
    rewrite repeat_length.
    destruct (Nat.ltb_spec m (Construct.sizeof c)); [lia |].
    rewrite skipn_zeros.
    destruct (IH (m - Construct.sizeof c)%nat) as (obj & Hobj & Hkeys); [lia |].
    rewrite Hobj. eexists. split; [reflexivity |]. simpl. now rewrite Hkeys.
Qed.

(** ** The block header (C6) *)

Lemma spec_block_header_length (merkle_root : bytes) (time bits nonce : Z) :
  List.length merkle_root = 32%nat ->
  List.length (spec_block_header merkle_root time bits nonce) = 80%nat.
Proof.
  intros H. unfold spec_block_header.
  rewrite !length_app, !le_bytes_length, repeat_length, H. reflexivity.
Qed.

(** C6: for a 32-byte merkle root and time, bits and nonce in 32-bit range
    the header is exactly 80 bytes: version 1 as 4 little-endian bytes, 32
    zero bytes, the merkle root as supplied, then time, bits and nonce as 4
    little-endian bytes each. *)
Theorem create_block_header_layout (hash_merkle_root : bytes) (time_value bits nonce : Z) :
  List.length hash_merkle_root = 32%nat ->
  0 <= time_value < 2 ^ 32 ->
  0 <= bits < 2 ^ 32 ->
  0 <= nonce < 2 ^ 32 ->
  create_block_header hash_merkle_root time_value bits nonce
    = Ok (spec_block_header hash_merkle_root time_value bits nonce)
  /\ List.length (spec_block_header hash_merkle_root time_value bits nonce) = 80%nat
  /\ firstn 4 (spec_block_header hash_merkle_root time_value bits nonce)
     = [x01; x00; x00; x00]
  /\ firstn 32 (skipn 36 (spec_block_header hash_merkle_root time_value bits nonce))
     = hash_merkle_root.
Proof.
  intros Hroot Ht Hb Hn.
  split; [| split; [now apply spec_block_header_length | split]].
  - unfold create_block_header.
    change (Construct.parse block_header (repeat x00 80))
      with (Ok (map (fun f => (fst f, Construct.VBytes (repeat x00 (Construct.sizeof (snd f)))))
                  block_header)).
    rewrite (pack_I_ok time_value), (pack_I_ok bits), (pack_I_ok nonce) by assumption.
    cbn [rbind pack_I pack_qqqq pack_q].
    cbn -[le_bytes repeat Nat.eqb List.length].
    rewrite Hroot, !le_bytes_length. cbn [Nat.eqb]. reflexivity.
  - reflexivity.
  - unfold spec_block_header.
    change (le_bytes 4 1 ++ repeat x00 32 ++ hash_merkle_root
            ++ le_bytes 4 time_value ++ le_bytes 4 bits ++ le_bytes 4 nonce)
      with ((le_bytes 4 1 ++ repeat x00 32) ++ hash_merkle_root
            ++ le_bytes 4 time_value ++ le_bytes 4 bits ++ le_bytes 4 nonce).
    rewrite skipn_app. change (List.length (le_bytes 4 1 ++ repeat x00 32)) with 36%nat.
    change (skipn 36 (le_bytes 4 1 ++ repeat x00 32)) with (@nil byte).
    cbn [app Nat.sub skipn].
    rewrite firstn_app, Hroot, Nat.sub_diag.
    rewrite <- Hroot, firstn_all. cbn [firstn]. now rewrite app_nil_r.
Qed.

Lemma create_block_header_layout_witness :
  List.length (rev (bytes_of_hex
    "4a5e1e4baab89f3a32518a88c31bc87f618f76673e2cc77ab2127b7afdeda33b")) = 32%nat
  /\ create_block_header
       (rev (bytes_of_hex
          "4a5e1e4baab89f3a32518a88c31bc87f618f76673e2cc77ab2127b7afdeda33b"))
       1231006505 0x1d00ffff 2083236893
     = Ok (spec_block_header
             (rev (bytes_of_hex
                "4a5e1e4baab89f3a32518a88c31bc87f618f76673e2cc77ab2127b7afdeda33b"))
             1231006505 0x1d00ffff 2083236893).
Proof.
  assert (H : List.length (rev (bytes_of_hex
    "4a5e1e4baab89f3a32518a88c31bc87f618f76673e2cc77ab2127b7afdeda33b")) = 32%nat)
    by (vm_compute; reflexivity).
  split; [exact H |].
  refine (proj1 (create_block_header_layout _ 1231006505 0x1d00ffff 2083236893 H _ _ _));
    split; (discriminate || reflexivity).
Defined.

(** With Bitcoin's merkle root, time, bits and nonce the header is Bitcoin's
    genesis header. *)
Example create_block_header_bitcoin :
  create_block_header
    (rev (bytes_of_hex "4a5e1e4baab89f3a32518a88c31bc87f618f76673e2cc77ab2127b7afdeda33b"))
    1231006505 0x1d00ffff 2083236893
  = Ok bitcoin_header.
Proof. vm_compute. reflexivity. Qed.

(** ** The coinbase transaction (C7) *)

Lemma spec_transaction_length (input_script output_script : bytes) (value : Z) :
  List.length output_script = 67%nat ->
  List.length (spec_transaction input_script output_script value)
  = (127 + List.length input_script)%nat.
Proof.
  intros H. unfold spec_transaction.
  rewrite !length_app, !le_bytes_length, repeat_length, H. simpl. lia.
Qed.

Lemma keys_cons {A} (k : string) (ks : list string) (obj : list (string * A)) :
  map fst obj = k :: ks ->
  exists v rest, obj = (k, v) :: rest /\ map fst rest = ks.
Proof.
  destruct obj as [| [k' v] rest]; simpl; intros E; [discriminate |].
  injection E as -> E. now exists v, rest.
Qed.

(** C7, as amended: for an input script of at most 255 bytes, a 67-byte
    output script and a value in signed 64-bit range, the transaction is
    version 1 (4 bytes little-endian), input count 1, 32 zero bytes, index
    ffffffff, one length byte, the input script, sequence ffffffff, output
    count 1, the value as 8 little-endian bytes, length byte 43, the output
    script and locktime 0, and it is 127 + len(input_script) bytes long. *)
Theorem create_transaction_layout (input_script output_script : bytes)
    (options : Options.t) :
  (List.length input_script <= 255)%nat ->
  List.length output_script = 67%nat ->
  - 2 ^ 63 <= Options.value options < 2 ^ 63 ->
  create_transaction input_script output_script options
    = Ok (spec_transaction input_script output_script (Options.value options))
  /\ List.length (spec_transaction input_script output_script (Options.value options))
     = (127 + List.length input_script)%nat.
Proof.
  intros Hin Hout Hval.
  split; [| now apply spec_transaction_length].
  unfold create_transaction.
  destruct (parse_zeros (transaction (List.length input_script))
              (127 + List.length input_script)) as (tx & Htx & Hkeys);
    [simpl; lia |].
  rewrite Htx. clear Htx.
  unfold transaction in Hkeys. cbn [map fst] in Hkeys.
  repeat match type of Hkeys with
         | map fst _ = _ :: _ =>
             apply keys_cons in Hkeys; destruct Hkeys as (? & ? & -> & Hkeys)
         end.
  apply map_eq_nil in Hkeys. subst.
  rewrite (pack_q_ok (Options.value options)) by assumption.
  cbn [rbind pack_I pack_qqqq pack_q].
  cbn -[le_bytes repeat Nat.eqb List.length Z.of_nat pack_B pack_BE_L].
  rewrite Hout, !length_app, !le_bytes_length.
  repeat rewrite Nat.eqb_refl.
  rewrite (pack_B_ok (Z.of_nat (List.length input_script))) by lia.
  cbn -[le_bytes repeat Z.of_nat]. reflexivity.
Qed.

Lemma create_transaction_layout_witness :
  (List.length (spec_input_script (map byte_of_Z (Options.timestamp bitcoin))) <= 255)%nat
  /\ List.length bitcoin_output_script = 67%nat
  /\ - 2 ^ 63 <= Options.value bitcoin < 2 ^ 63
  /\ create_transaction (spec_input_script (map byte_of_Z (Options.timestamp bitcoin)))
       bitcoin_output_script bitcoin
     = Ok (spec_transaction (spec_input_script (map byte_of_Z (Options.timestamp bitcoin)))
             bitcoin_output_script (Options.value bitcoin)).
Proof.
  assert (H1 : (List.length (spec_input_script (map byte_of_Z (Options.timestamp bitcoin)))
                <= 255)%nat) by (apply Nat.leb_le; vm_compute; reflexivity).
  assert (H2 : List.length bitcoin_output_script = 67%nat) by (vm_compute; reflexivity).
  assert (H3 : - 2 ^ 63 <= Options.value bitcoin < 2 ^ 63)
    by (split; [discriminate | reflexivity]).
  split; [exact H1 | split; [exact H2 | split; [exact H3 |]]].
  exact (proj1 (create_transaction_layout _ _ bitcoin H1 H2 H3)).
Defined.

(** The transaction built from the defaults hashes to the merkle root of
    Bitcoin's genesis block. *)
Example create_transaction_bitcoin :
  (tx <~ create_transaction (spec_input_script (map byte_of_Z (Options.timestamp bitcoin)))
           bitcoin_output_script bitcoin ;;
   Ok (hex (sha256d_digest installed tx)))%py
  = Ok "4a5e1e4baab89f3a32518a88c31bc87f618f76673e2cc77ab2127b7afdeda33b"%string.
Proof. vm_compute. reflexivity. Qed.

(** C7 fails as stated: the input script of a 247-character timestamp is 256
    bytes long, its length does not fit the one-byte field and the builder
    raises [FieldError] instead of returning 127 + 256 bytes. *)
Lemma create_transaction_script_too_long :
  snd (create_input_script (repeat 0x61 247)) = Return script_256
  /\ List.length script_256 = 256%nat
  /\ List.length bitcoin_output_script = 67%nat
  /\ create_transaction script_256 bitcoin_output_script bitcoin = Raise FieldError.
Proof.
  split; [| split; [| split]]; vm_compute; reflexivity.
Qed.

(** ** Replacing the nonce (C9) *)

Lemma drop_last4_app (x p : bytes) :
  List.length p = 4%nat -> drop_last4 (x ++ p) = x.
Proof.
  intros H. unfold drop_last4. rewrite length_app, H.
  replace (List.length x + 4 - 4)%nat with (List.length x + 0)%nat by lia.
  rewrite firstn_app_2. simpl. now rewrite app_nil_r.
Qed.

Lemma drop_last4_80 (data : bytes) :
  List.length data = 80%nat -> drop_last4 data = firstn 76 data.
Proof.
  intros H. unfold drop_last4. now rewrite H.
Qed.

(** C9: on an 80-byte header and a nonce in 32-bit range the nonce update
    returns an 80-byte header whose first 76 bytes are those of the old one;
    its last 4 bytes are the little-endian nonce. *)
Theorem set_nonce_frame (data_block : bytes) (nonce : Z) :
  List.length data_block = 80%nat ->
  0 <= nonce < 2 ^ 32 ->
  exists data_block',
    set_nonce data_block nonce = Ok data_block'
    /\ List.length data_block' = 80%nat
    /\ firstn 76 data_block' = firstn 76 data_block
    /\ (forall i, (i < 76)%nat -> nth_error data_block' i = nth_error data_block i)
    /\ skipn 76 data_block' = le_bytes 4 nonce.
Proof.
  intros Hlen Hn.
  exists (firstn 76 data_block ++ le_bytes 4 nonce).
  assert (H76 : List.length (firstn 76 data_block) = 76%nat)
    by (rewrite length_firstn; lia).
  split; [| split; [| split; [| split]]].
  - unfold set_nonce. rewrite pack_I_ok by exact Hn.
    cbn [rbind]. now rewrite drop_last4_80.
  - rewrite length_app, H76, le_bytes_length. reflexivity.
  - rewrite firstn_app, H76, Nat.sub_diag, firstn_firstn.
    change (firstn 0 (le_bytes 4 nonce)) with (@nil byte).
    now rewrite app_nil_r.
  - intros i Hi. rewrite nth_error_app1 by lia.
    rewrite nth_error_firstn.
    destruct (Nat.ltb_spec i 76); [reflexivity | lia].
  - rewrite skipn_app, H76, Nat.sub_diag.
    rewrite (skipn_all2 (firstn 76 data_block)) by (rewrite H76; lia).
    reflexivity.
Qed.

Lemma set_nonce_frame_witness :
  List.length bitcoin_header = 80%nat
  /\ 0 <= 7 < 2 ^ 32
  /\ exists data_block',
       set_nonce bitcoin_header 7 = Ok data_block'
       /\ List.length data_block' = 80%nat
       /\ firstn 76 data_block' = firstn 76 bitcoin_header
       /\ (forall i, (i < 76)%nat -> nth_error data_block' i = nth_error bitcoin_header i)
       /\ skipn 76 data_block' = le_bytes 4 7.
Proof.
  assert (H1 : List.length bitcoin_header = 80%nat) by (vm_compute; reflexivity).
  assert (H2 : 0 <= 7 < 2 ^ 32) by (split; [discriminate | reflexivity]).
  split; [exact H1 | split; [exact H2 |]].
  exact (set_nonce_frame bitcoin_header 7 H1 H2).
Defined.

(** ** The search loop *)

Lemma bind_lift_ok {A B} (a : A) (f : A -> io B) : bind (lift (Ok a)) f = f a.
Proof. unfold bind, lift. now destruct (f a). Qed.

Lemma bind_lift_raise {A B} (e : exn) (f : A -> io B) :
  bind (lift (Raise e)) f = ([], Raised e).
Proof. reflexivity. Qed.

Lemma bind_print {B} (s : string) (f : unit -> io B) :
  bind (print s) f = (Line s :: fst (f tt), snd (f tt)).
Proof. unfold bind, print, emit. now destruct (f tt). Qed.

Lemma bind_calculate_hashrate {B} (nonce : Z) (f : unit -> io B) :
  bind (calculate_hashrate nonce) f = (progress nonce ++ fst (f tt), snd (f tt)).
Proof.
  unfold calculate_hashrate, progress, bind.
  destruct (nonce mod 1000000 =? 999999); cbn; now destruct (f tt).
Qed.

Section Search.

Variable L : Libs.
Variable algorithm : string.
Variable target : Q.

(** One iteration of the loop, case by case. *)
Lemma search_step (fuel : nat) (data_block : bytes) (nonce : Z) :
  search L (S fuel) algorithm target data_block nonce =
  match generate_hashes_from_block L data_block algorithm with
  | Ok (sha256_hash, header_hash) =>
      match is_genesis_hash header_hash target with
      | Ok true =>
          (progress nonce,
           Return (if returns_pow algorithm then header_hash else sha256_hash, nonce))
      | Ok false =>
          match set_nonce data_block (nonce + 1) with
          | Ok data_block' =>
              (progress nonce
                 ++ fst (search L fuel algorithm target data_block' (nonce + 1)),
               snd (search L fuel algorithm target data_block' (nonce + 1)))
          | Raise e => (progress nonce, Raised e)
          end
      | Raise e => (progress nonce, Raised e)
      end
  | Raise e => ([], Raised e)
  end.
Proof.
  cbn [search].
  destruct (generate_hashes_from_block L data_block algorithm) as [[s h] | e];
    [| reflexivity].
  rewrite bind_lift_ok, bind_calculate_hashrate.
  destruct (is_genesis_hash h target) as [[|] | e].
  - rewrite bind_lift_ok. unfold returns_pow.
    destruct (str_in algorithm ["X11"; "X13"; "X15"]%string);
      cbn; now rewrite app_nil_r.
  - rewrite bind_lift_ok.
    destruct (set_nonce data_block (nonce + 1)) as [d | e].
    + now rewrite bind_lift_ok.
    + rewrite bind_lift_raise. cbn. now rewrite app_nil_r.
  - rewrite bind_lift_raise. cbn. now rewrite app_nil_r.
Qed.

Lemma set_nonce_inv (data_block data_block' : bytes) (n : Z) :
  set_nonce data_block n = Ok data_block' ->
  0 <= n < 2 ^ 32 /\ data_block' = drop_last4 data_block ++ le_bytes 4 n.
Proof.
  unfold set_nonce. destruct (pack_I n) as [p |] eqn:E; try discriminate.
  apply pack_I_inv in E. destruct E as [Hn ->].
  cbn [rbind]. intros H. split; [exact Hn | congruence].
Qed.

(** After the first update the last four bytes are the only thing that
    changes: the block hashed for a later counter does not depend on how
    many updates came before. *)
Lemma tested_block_next (data_block : bytes) (nonce m : Z) :
  nonce + 1 <= m ->
  tested_block (drop_last4 data_block ++ le_bytes 4 (nonce + 1)) (nonce + 1) m
  = tested_block data_block nonce m.
Proof.
  intros H. unfold tested_block.
  destruct (Z.eqb_spec m nonce); [lia |].
  destruct (Z.eqb_spec m (nonce + 1)) as [-> | _]; [reflexivity |].
  now rewrite drop_last4_app by apply le_bytes_length.
Qed.

(** What a returned pair says about the run: the counter only went up, the
    block hashed last met the target, every block before it did not, and the
    digest returned is chosen by the test of line 148. *)
Lemma search_returns (fuel : nat) :
  forall (data_block : bytes) (nonce : Z) (out : list event) (d : bytes) (n : Z),
  search L fuel algorithm target data_block nonce = (out, Return (d, n)) ->
  nonce <= n
  /\ (n = nonce \/ n < 2 ^ 32)
  /\ (exists s p,
        generate_hashes_from_block L (tested_block data_block nonce n) algorithm
          = Ok (s, p)
        /\ is_genesis_hash p target = Ok true
        /\ d = if returns_pow algorithm then p else s)
  /\ (forall m, nonce <= m < n ->
        exists s p,
          generate_hashes_from_block L (tested_block data_block nonce m) algorithm
            = Ok (s, p)
          /\ is_genesis_hash p target = Ok false).
Proof.
  induction fuel as [| fuel IH]; intros data_block nonce out d n Hrun.
  - discriminate.
  - rewrite search_step in Hrun.
    destruct (generate_hashes_from_block L data_block algorithm)
      as [[s h] | e] eqn:Eh; try discriminate.
    destruct (is_genesis_hash h target) as [[|] | e] eqn:Eg; try discriminate.
    + injection Hrun as _ <- <-.
      assert (Es : tested_block data_block nonce nonce = data_block)
        by (unfold tested_block; now rewrite Z.eqb_refl).
      split; [lia | split; [now left | split]].
      * exists s, h. rewrite Es. auto.
      * intros m Hm. lia.
    + destruct (set_nonce data_block (nonce + 1)) as [data' | e] eqn:En;
        try discriminate.
      apply set_nonce_inv in En. destruct En as [Hrange ->].
      destruct (search L fuel algorithm target
                  (drop_last4 data_block ++ le_bytes 4 (nonce + 1)) (nonce + 1))
        as [out' r] eqn:Er.
      cbn [fst snd] in Hrun. injection Hrun as _ ->.
      apply IH in Er. destruct Er as (Hle & Hbound & Hlast & Hbefore).
      split; [lia | split; [right; lia | split]].
      * destruct Hlast as (s' & p' & H1 & H2 & H3).
        exists s', p'. rewrite tested_block_next in H1 by lia. auto.
      * intros m Hm.
        destruct (Z.eq_dec m nonce) as [-> | Hne].
        -- exists s, h. unfold tested_block. rewrite Z.eqb_refl. auto.
        -- destruct (Hbefore m) as (s' & p' & H1 & H2); [lia |].
           exists s', p'. rewrite tested_block_next in H1 by lia. auto.
Qed.

(** If no counter from [nonce] to [2^32 - 1] meets the target, the loop ends
    when it packs a counter outside [0, 2^32) (which is [2^32], unless the
    counter started below -1), given fuel for the iterations in between. *)
Lemma search_exhausts (fuel : nat) :
  forall (data_block : bytes) (nonce : Z),
  nonce < 2 ^ 32 ->
  (Z.to_nat (2 ^ 32 - nonce) <= fuel)%nat ->
  (forall m, nonce <= m < 2 ^ 32 ->
     exists s p,
       generate_hashes_from_block L (tested_block data_block nonce m) algorithm
         = Ok (s, p)
       /\ is_genesis_hash p target = Ok false) ->
  snd (search L fuel algorithm target data_block nonce) = Raised StructError.
Proof.
  induction fuel as [| fuel IH]; intros data_block nonce Hn Hfuel Hmiss.
  - lia.
  - rewrite search_step.
    destruct (Hmiss nonce) as (s & p & H1 & H2); [lia |].
    unfold tested_block in H1. rewrite Z.eqb_refl in H1.
    rewrite H1, H2.
    destruct (Z.lt_ge_cases (nonce + 1) 0) as [Hneg | Hpos];
      [| destruct (Z.eq_dec (nonce + 1) (2 ^ 32)) as [Hmax | Hmore]].
    + unfold set_nonce. rewrite pack_I_error by lia. reflexivity.
    + unfold set_nonce. rewrite pack_I_error by lia. reflexivity.
    + unfold set_nonce. rewrite pack_I_ok by lia. cbn [rbind snd].
      apply IH; [lia | lia |].
      intros m Hm. destruct (Hmiss m) as (s' & p' & H1' & H2'); [lia |].
      exists s', p'. rewrite tested_block_next by lia. auto.
Qed.

(** The loop does return when some counter meets the target: with the
    counters before [n] missing and [n] meeting it, fuel for [n - nonce + 1]
    iterations is enough. *)
Lemma search_finds (fuel : nat) :
  forall (data_block : bytes) (nonce n : Z),
  nonce <= n ->
  n = nonce \/ (0 <= nonce + 1 /\ n < 2 ^ 32) ->
  (Z.to_nat (n - nonce) < fuel)%nat ->
  (forall m, nonce <= m < n ->
     exists s p,
       generate_hashes_from_block L (tested_block data_block nonce m) algorithm
         = Ok (s, p)
       /\ is_genesis_hash p target = Ok false) ->
  forall s p,
  generate_hashes_from_block L (tested_block data_block nonce n) algorithm = Ok (s, p) ->
  is_genesis_hash p target = Ok true ->
  snd (search L fuel algorithm target data_block nonce)
  = Return (if returns_pow algorithm then p else s, n).
Proof.
  induction fuel as [| fuel IH]; intros data_block nonce n Hle Hrange Hfuel Hmiss s p Hh Hg.
  - lia.
  - rewrite search_step.
    destruct (Z.eq_dec n nonce) as [-> | Hne].
    + unfold tested_block in Hh. rewrite Z.eqb_refl in Hh.
      now rewrite Hh, Hg.
    + destruct (Hmiss nonce) as (s0 & p0 & H1 & H2); [lia |].
      unfold tested_block in H1. rewrite Z.eqb_refl in H1.
      rewrite H1, H2.
      unfold set_nonce. rewrite pack_I_ok by lia. cbn [rbind snd].
      apply IH; [lia | destruct (Z.eq_dec n (nonce + 1)); [now left | right; lia] | lia | |
                 now rewrite tested_block_next by lia | exact Hg].
      intros m Hm. destruct (Hmiss m) as (s' & p' & H1' & H2'); [lia |].
      exists s', p'. rewrite tested_block_next by lia. auto.
Qed.

End Search.

Lemma generate_hash_unfold (L : Libs) (fuel : nat) (data_block : bytes)
    (algorithm : string) (start_nonce bits : Z) :
  generate_hash L fuel data_block algorithm start_nonce bits
  = (Line "Searching for genesis hash.."
       :: fst (search L fuel algorithm (decode_target bits) data_block start_nonce),
     snd (search L fuel algorithm (decode_target bits) data_block start_nonce)).
Proof.
  unfold generate_hash, print, emit, bind.
  now destruct (search L fuel algorithm (decode_target bits) data_block start_nonce).
Qed.

(** The comparison of [is_genesis_hash] is between the digest read as a
    big-endian number and the target. *)
Lemma is_genesis_hash_spec (header_hash : bytes) (target : Q) :
  header_hash <> [] ->
  is_genesis_hash header_hash target = Ok (Qltb (inject_Z (be_int header_hash)) target).
Proof.
  intros H. unfold is_genesis_hash. now rewrite int16_hex.
Qed.

Lemma is_genesis_hash_nil (target : Q) : is_genesis_hash [] target = Raise ValueError.
Proof. reflexivity. Qed.

Lemma is_genesis_hash_true (header_hash : bytes) (target : Q) :
  is_genesis_hash header_hash target = Ok true ->
  header_hash <> [] /\ (inject_Z (be_int header_hash) < target)%Q.
Proof.
  intros H. destruct header_hash as [| b p]; [discriminate |].
  split; [discriminate |].
  rewrite is_genesis_hash_spec in H by discriminate.
  injection H as H. unfold Qltb in H. apply negb_true_iff in H.
  apply Qnot_le_lt. intros Hle. apply Qle_bool_iff in Hle. congruence.
Qed.

Lemma is_genesis_hash_false (header_hash : bytes) (target : Q) :
  is_genesis_hash header_hash target = Ok false ->
  header_hash <> [] /\ (target <= inject_Z (be_int header_hash))%Q.
Proof.
  intros H. destruct header_hash as [| b p]; [discriminate |].
  split; [discriminate |].
  rewrite is_genesis_hash_spec in H by discriminate.
  injection H as H. unfold Qltb in H. apply negb_false_iff in H.
  now apply Qle_bool_iff.
Qed.

(** ** The two digests (C8) *)

(** C8: for every header and every supported algorithm the first digest is
    the byte-reversed SHA256(SHA256(header)) whatever the algorithm: it is
    what every returned pair carries, a pair is returned unless the module
    of X11, X13 or X15 is missing, and for SHA256 the proof-of-work digest
    is that same value. *)
Theorem generate_hashes_sha256d (L : Libs) (data_block : bytes) (algorithm : string) :
  In algorithm supported_algorithms ->
  (forall s p, generate_hashes_from_block L data_block algorithm = Ok (s, p) ->
     s = rev (sha256 L (sha256 L data_block)))
  /\ (backend_missing L algorithm = false ->
      exists p, generate_hashes_from_block L data_block algorithm
                = Ok (rev (sha256 L (sha256 L data_block)), p))
  /\ (backend_missing L algorithm = true ->
      exists msg, generate_hashes_from_block L data_block algorithm
                  = Raise (SystemExit msg))
  /\ (algorithm = "SHA256"%string ->
      generate_hashes_from_block L data_block algorithm
      = Ok (rev (sha256 L (sha256 L data_block)), rev (sha256 L (sha256 L data_block)))).
Proof.
  intros Hin. unfold supported_algorithms in Hin. cbn [In] in Hin.
  destruct Hin as [<- | [<- | [<- | [<- | [<- | []]]]]];
    unfold generate_hashes_from_block, backend_missing; cbn [String.eqb Ascii.eqb Bool.eqb];
    (split; [| split; [| split]]);
    try (destruct (xcoin_hash L)); try (destruct (x13_hash L)); try (destruct (x15_hash L));
    try discriminate;
    try (intros s p [= <- _]; reflexivity);
    try (intros _; eexists; reflexivity);
    try (intros _; reflexivity).
Qed.

Lemma generate_hashes_sha256d_witness :
  In "scrypt"%string supported_algorithms
  /\ (forall s p,
        generate_hashes_from_block installed litecoin_header "scrypt" = Ok (s, p) ->
        s = rev (sha256 installed (sha256 installed litecoin_header))).
Proof.
  assert (H : In "scrypt"%string supported_algorithms) by (right; left; reflexivity).
  split; [exact H |].
  exact (proj1 (generate_hashes_sha256d installed litecoin_header "scrypt" H)).
Defined.

(** ** Which digest is returned (C1) *)

(** C1, as amended: when the search returns [(winning_digest, nonce)], the
    winning digest is the proof-of-work digest of the block hashed last for
    X11, X13 and X15, and the sha256d digest of that block for SHA256 and
    for scrypt (for SHA256 the two digests coincide). *)
Theorem generate_hash_digest (L : Libs) (fuel : nat) (data_block : bytes)
    (algorithm : string) (start_nonce bits : Z)
    (out : list event) (winning_digest : bytes) (nonce : Z) :
  generate_hash L fuel data_block algorithm start_nonce bits
    = (out, Return (winning_digest, nonce)) ->
  exists p,
    pow_digest L (tested_block data_block start_nonce nonce) algorithm = Ok p
    /\ (In algorithm ["X11"; "X13"; "X15"]%string -> winning_digest = p)
    /\ (In algorithm ["SHA256"; "scrypt"]%string ->
        winning_digest
        = sha256d_digest L (tested_block data_block start_nonce nonce))
    /\ (algorithm = "SHA256"%string -> winning_digest = p).
Proof.
  rewrite generate_hash_unfold. intros Hrun.
  destruct (search L fuel algorithm (decode_target bits) data_block start_nonce)
    as [out' r] eqn:Er.
  cbn [fst snd] in Hrun. injection Hrun as _ ->.
  apply search_returns in Er.
  destruct Er as (_ & _ & (s & p & Hh & _ & Hd) & _).
  exists p. unfold pow_digest. rewrite Hh.
  split; [reflexivity |].
  unfold sha256d_digest, returns_pow in *.
  split; [| split].
  - intros [<- | [<- | [<- | []]]]; exact Hd.
  - intros [<- | [<- | []]]; cbn in Hd; subst winning_digest.
    + unfold generate_hashes_from_block in Hh. cbn in Hh. congruence.
    + unfold generate_hashes_from_block in Hh. cbn in Hh. congruence.
  - intros ->. cbn in Hd. subst winning_digest.
    unfold generate_hashes_from_block in Hh. cbn in Hh. congruence.
Qed.

(** Bitcoin's genesis header, searched from its own nonce, is found at once
    and the hash returned is Bitcoin's genesis hash. *)
Lemma generate_hash_bitcoin :
  generate_hash installed 1 bitcoin_header "SHA256" 2083236893 0x1d00ffff
  = ([Line "Searching for genesis hash.."], Return (bitcoin_hash, 2083236893)).
Proof. vm_compute. reflexivity. Qed.

Lemma generate_hash_digest_witness :
  generate_hash installed 1 bitcoin_header "SHA256" 2083236893 0x1d00ffff
    = ([Line "Searching for genesis hash.."], Return (bitcoin_hash, 2083236893))
  /\ exists p,
       pow_digest installed (tested_block bitcoin_header 2083236893 2083236893) "SHA256"
         = Ok p
       /\ (In "SHA256"%string ["X11"; "X13"; "X15"]%string -> bitcoin_hash = p)
       /\ (In "SHA256"%string ["SHA256"; "scrypt"]%string ->
           bitcoin_hash
           = sha256d_digest installed (tested_block bitcoin_header 2083236893 2083236893))
       /\ ("SHA256"%string = "SHA256"%string -> bitcoin_hash = p).
Proof.
  split; [exact generate_hash_bitcoin |].
  exact (generate_hash_digest installed 1 bitcoin_header "SHA256" 2083236893 0x1d00ffff
           _ _ _ generate_hash_bitcoin).
Defined.

(** The two digests of Litecoin's genesis header: its identity hash is the
    double SHA-256, its proof of work the scrypt hash. *)
Lemma litecoin_hashes :
  generate_hashes_from_block installed litecoin_header "scrypt"
  = Ok (litecoin_hash, litecoin_pow).
Proof. vm_compute. reflexivity. Qed.

(** C1 fails as stated for scrypt: on Litecoin's genesis header the search
    succeeds at once and returns the sha256d digest 12a765e3..., which is not
    the proof-of-work digest 0000050c... that met the target. *)
Lemma generate_hash_scrypt_returns_sha256d :
  generate_hash installed 1 litecoin_header "scrypt" 2084524493 0x1e0ffff0
    = ([Line "Searching for genesis hash.."], Return (litecoin_hash, 2084524493))
  /\ pow_digest installed litecoin_header "scrypt" = Ok litecoin_pow
  /\ litecoin_hash <> litecoin_pow.
Proof.
  assert (Hmeets : is_genesis_hash litecoin_pow (decode_target 0x1e0ffff0) = Ok true)
    by (vm_compute; reflexivity).
  split; [| split].
  - rewrite generate_hash_unfold, search_step, litecoin_hashes, Hmeets. reflexivity.
  - unfold pow_digest. now rewrite litecoin_hashes.
  - vm_compute. discriminate.
Qed.

(** ** The nonce found is the least one (C4) *)

Lemma tested_block_set_nonce (data_block : bytes) (start m : Z) :
  set_nonce data_block start = Ok data_block ->
  0 <= m < 2 ^ 32 ->
  set_nonce data_block m = Ok (tested_block data_block start m).
Proof.
  intros Hstart Hm. apply set_nonce_inv in Hstart. destruct Hstart as [_ Hstart].
  unfold set_nonce, tested_block. rewrite pack_I_ok by exact Hm. cbn [rbind].
  destruct (Z.eqb_spec m start) as [-> | _]; [now rewrite <- Hstart | reflexivity].
Qed.

(** C4, as amended: for a header whose last four bytes hold the start nonce
    (as [main] builds it), if the search returns nonce [n], then [n] is at
    least the start nonce, the proof-of-work digest of the header at nonce
    [n], read as a big-endian unsigned integer, is strictly below the decoded
    target, and every nonce [m] with start <= m < n has a digest that is not
    below it. *)
Theorem generate_hash_least_nonce (L : Libs) (fuel : nat) (data_block : bytes)
    (algorithm : string) (start_nonce bits : Z)
    (out : list event) (winning_digest : bytes) (n : Z) :
  set_nonce data_block start_nonce = Ok data_block ->
  generate_hash L fuel data_block algorithm start_nonce bits
    = (out, Return (winning_digest, n)) ->
  start_nonce <= n < 2 ^ 32
  /\ (exists block p,
        set_nonce data_block n = Ok block
        /\ pow_digest L block algorithm = Ok p
        /\ (inject_Z (be_int p) < decode_target bits)%Q)
  /\ (forall m, start_nonce <= m < n ->
        exists block p,
          set_nonce data_block m = Ok block
          /\ pow_digest L block algorithm = Ok p
          /\ (decode_target bits <= inject_Z (be_int p))%Q).
Proof.
  intros Hfield. rewrite generate_hash_unfold. intros Hrun.
  destruct (search L fuel algorithm (decode_target bits) data_block start_nonce)
    as [out' r] eqn:Er.
  cbn [fst snd] in Hrun. injection Hrun as _ ->.
  apply search_returns in Er.
  destruct Er as (Hle & Hbound & (s & p & Hh & Hmeets & _) & Hbefore).
  pose proof (set_nonce_inv _ _ _ Hfield) as [Hstart _].
  assert (Hn : start_nonce <= n < 2 ^ 32) by (destruct Hbound; lia).
  split; [exact Hn | split].
  - exists (tested_block data_block start_nonce n), p.
    split; [apply tested_block_set_nonce; [exact Hfield | lia] |].
    unfold pow_digest. rewrite Hh. split; [reflexivity |].
    now apply is_genesis_hash_true.
  - intros m Hm. destruct (Hbefore m Hm) as (s' & p' & Hh' & Hmiss).
    exists (tested_block data_block start_nonce m), p'.
    split; [apply tested_block_set_nonce; [exact Hfield | lia] |].
    unfold pow_digest. rewrite Hh'. split; [reflexivity |].
    now apply is_genesis_hash_false.
Qed.

(** A search that takes two steps: from nonce 2083236892 the first header
    misses and the second is Bitcoin's genesis header. *)
Lemma generate_hash_two_steps :
  generate_hash installed 2 (drop_last4 bitcoin_header ++ le_bytes 4 2083236892)
    "SHA256" 2083236892 0x1d00ffff
  = ([Line "Searching for genesis hash.."], Return (bitcoin_hash, 2083236893)).
Proof. vm_compute. reflexivity. Qed.

Lemma generate_hash_least_nonce_witness :
  set_nonce (drop_last4 bitcoin_header ++ le_bytes 4 2083236892) 2083236892
    = Ok (drop_last4 bitcoin_header ++ le_bytes 4 2083236892)
  /\ generate_hash installed 2 (drop_last4 bitcoin_header ++ le_bytes 4 2083236892)
       "SHA256" 2083236892 0x1d00ffff
     = ([Line "Searching for genesis hash.."], Return (bitcoin_hash, 2083236893))
  /\ 2083236892 <= 2083236893 < 2 ^ 32.
Proof.
  assert (H : set_nonce (drop_last4 bitcoin_header ++ le_bytes 4 2083236892) 2083236892
              = Ok (drop_last4 bitcoin_header ++ le_bytes 4 2083236892))
    by (vm_compute; reflexivity).
  split; [exact H | split; [exact generate_hash_two_steps |]].
  exact (proj1 (generate_hash_least_nonce installed 2 _ "SHA256" 2083236892 0x1d00ffff
                  _ _ _ H generate_hash_two_steps)).
Defined.

(** C4 fails as stated: the first iteration hashes the block as it is given,
    not the block at the start nonce.  Given Bitcoin's genesis header (nonce
    field 2083236893) and start nonce 0, the search returns nonce 0 at once,
    although the header at nonce 0 has a digest above the target. *)
Lemma generate_hash_first_block_not_repacked :
  generate_hash installed 1 bitcoin_header "SHA256" 0 0x1d00ffff
    = ([Line "Searching for genesis hash.."], Return (bitcoin_hash, 0))
  /\ set_nonce bitcoin_header 0 = Ok bitcoin_header_0
  /\ pow_digest installed bitcoin_header_0 "SHA256"
     = Ok (bytes_of_hex
             "2bc1a7f50ab3c6d73bac757d75c7f35c6ba94de37339115abf4cb4a9983948bf")
  /\ ~ (inject_Z (be_int (bytes_of_hex
          "2bc1a7f50ab3c6d73bac757d75c7f35c6ba94de37339115abf4cb4a9983948bf"))
        < decode_target 0x1d00ffff)%Q.
Proof.
  split; [| split; [| split]]; try (vm_compute; reflexivity).
  vm_compute. discriminate.
Qed.

(** ** The nonce never wraps (C10) *)

(** C10: if no counter from the start nonce to 2^32 - 1 meets the target,
    the search, given fuel for these iterations, ends with the [struct.error]
    that packing the incremented nonce raises, as packing 2^32 does: it
    neither returns nor goes on with a wrapped nonce. *)
Theorem generate_hash_no_wrap (L : Libs) (fuel : nat) (data_block : bytes)
    (algorithm : string) (start_nonce bits : Z) :
  start_nonce < 2 ^ 32 ->
  (Z.to_nat (2 ^ 32 - start_nonce) <= fuel)%nat ->
  (forall m, start_nonce <= m < 2 ^ 32 ->
     exists s p,
       generate_hashes_from_block L (tested_block data_block start_nonce m) algorithm
         = Ok (s, p)
       /\ is_genesis_hash p (decode_target bits) = Ok false) ->
  snd (generate_hash L fuel data_block algorithm start_nonce bits) = Raised StructError
  /\ pack_I (2 ^ 32) = Raise StructError.
Proof.
  intros Hstart Hfuel Hmiss. split; [| reflexivity].
  rewrite generate_hash_unfold. cbn [snd].
  now apply search_exhausts.
Qed.

Lemma bitcoin_header_max_misses :
  generate_hashes_from_block installed bitcoin_header_max "SHA256"
    = Ok (bytes_of_hex "3229b625f91af61e746485bf7ed64dc6a77b1b3439e6e147c0af1ca6ef03e942",
          bytes_of_hex "3229b625f91af61e746485bf7ed64dc6a77b1b3439e6e147c0af1ca6ef03e942")
  /\ is_genesis_hash
       (bytes_of_hex "3229b625f91af61e746485bf7ed64dc6a77b1b3439e6e147c0af1ca6ef03e942")
       (decode_target 0x1d00ffff) = Ok false.
Proof. split; vm_compute; reflexivity. Qed.

Lemma generate_hash_no_wrap_witness :
  4294967295 < 2 ^ 32
  /\ (Z.to_nat (2 ^ 32 - 4294967295) <= 1)%nat
  /\ snd (generate_hash installed 1 bitcoin_header_max "SHA256" 4294967295 0x1d00ffff)
     = Raised StructError.
Proof.
  assert (H1 : 4294967295 < 2 ^ 32) by reflexivity.
  assert (H2 : (Z.to_nat (2 ^ 32 - 4294967295) <= 1)%nat) by (vm_compute; constructor).
  split; [exact H1 | split; [exact H2 |]].
  refine (proj1 (generate_hash_no_wrap installed 1 bitcoin_header_max "SHA256"
                   4294967295 0x1d00ffff H1 H2 _)).
  intros m Hm.
  assert (E : m = 4294967295) by (change (2 ^ 32) with 4294967296 in Hm; lia).
  subst m. unfold tested_block. rewrite Z.eqb_refl.
  eexists _, _. exact bitcoin_header_max_misses.
Defined.

(** ** Configuration errors (C3) *)

Lemma bind_assoc {A B C} (m : io A) (f : A -> io B) (g : B -> io C) :
  bind (bind m f) g = bind m (fun a => bind (f a) g).
Proof.
  destruct m as [out [a | e |]]; [| reflexivity | reflexivity].
  cbn [bind]. destruct (f a) as [out' [b | e |]]; cbn [bind];
    [destruct (g b); now rewrite app_assoc | reflexivity | reflexivity].
Qed.

Lemma bind_ext {A B} (m : io A) (f g : A -> io B) :
  (forall a, f a = g a) -> bind m f = bind m g.
Proof.
  intros H. destruct m as [out [a | e |]]; cbn [bind]; [now rewrite H | reflexivity ..].
Qed.

Lemma bind_no_fuel {A B} (m : io A) (f : A -> io B) :
  snd m <> OutOfFuel -> (forall a, snd (f a) <> OutOfFuel) ->
  snd (bind m f) <> OutOfFuel.
Proof.
  intros Hm Hf. destruct m as [out [a | e |]]; cbn [bind snd] in *;
    [| discriminate | congruence].
  specialize (Hf a). now destruct (f a).
Qed.

Lemma lift_no_fuel {A} (r : res A) : snd (lift r) <> OutOfFuel.
Proof. destruct r; discriminate. Qed.

Lemma print_no_fuel (s : string) : snd (print s) <> OutOfFuel.
Proof. discriminate. Qed.

Lemma setup_no_fuel (L : Libs) (options : Options.t) :
  snd (setup L options) <> OutOfFuel.
Proof.
  unfold setup, create_input_script, print_block_info.
  repeat first [ apply bind_no_fuel | apply lift_no_fuel | apply print_no_fuel | intros ? ].
Qed.

(** When the setup returns a header it has printed the input script and the
    six lines of block information. *)
Lemma setup_prints (L : Libs) (options : Options.t) (out : list event)
    (block_header : bytes) :
  setup L options = (out, Return block_header) ->
  exists script_hex tx,
    out = Line script_hex :: block_info options (sha256 L (sha256 L tx))
    /\ List.length out = 7%nat.
Proof.
  unfold setup, create_input_script.
  destruct (encode_utf8 (Options.timestamp options)) as [encoded | e];
    [| discriminate].
  rewrite bind_lift_ok, bind_assoc, bind_print.
  match goal with |- context [lift (fromhex ?s)] => destruct (fromhex s) as [script | e] end;
    [| discriminate].
  rewrite bind_lift_ok.
  destruct (create_output_script (Options.pubkey options)) as [output_script | e];
    [| discriminate].
  rewrite bind_lift_ok.
  destruct (create_transaction script output_script options) as [tx | e];
    [| discriminate].
  rewrite bind_lift_ok.
  destruct (create_block_header (sha256 L (sha256 L tx)) (Options.time options)
              (Options.bits options) (Options.nonce options)) as [header | e];
    cbn; [| discriminate].
  intros [= <- _]. eexists _, tx. split; reflexivity.
Qed.

(** [main] is [get_algorithm], then the setup, then the search and the
    announcement. *)
Lemma main_setup (L : Libs) (fuel : nat) (options : Options.t) (algorithm : string) :
  get_algorithm options = Ok algorithm ->
  main L fuel options =
  bind (setup L options) (fun block_header =>
    bind (generate_hash L fuel block_header algorithm (Options.nonce options)
            (Options.bits options))
         (fun r => announce_found_genesis (fst r) (snd r))).
Proof.
  intros H. unfold main, setup. rewrite H, bind_lift_ok.
  repeat (rewrite bind_assoc; apply bind_ext; intros ?).
  apply bind_ext. intros block_header.
  apply bind_ext. intros [g n]. reflexivity.
Qed.

Lemma missing_backend_exits (L : Libs) (data_block : bytes) (algorithm : string) :
  In algorithm ["X11"; "X13"; "X15"]%string ->
  backend_missing L algorithm = true ->
  generate_hashes_from_block L data_block algorithm
  = Raise (SystemExit (missing_message algorithm)).
Proof.
  intros [<- | [<- | [<- | []]]];
    unfold backend_missing, generate_hashes_from_block, missing_message;
    cbn [String.eqb Ascii.eqb Bool.eqb];
    [destruct (xcoin_hash L) | destruct (x13_hash L) | destruct (x15_hash L)];
    (discriminate || reflexivity).
Qed.

(** C3, as amended: a configuration with an unsupported algorithm name exits
    with status 1 before anything is printed and before any search.  A
    configuration that selects X11, X13 or X15 while the module is missing
    also exits with status 1, but from the first iteration of the search
    loop: after the scripts, the transaction and the header were built, and
    after the input script, the block information and the search banner were
    printed; no nonce is tested and nothing is announced. *)
Theorem main_configuration_error (L : Libs) (fuel : nat) (options : Options.t)
    (msg : string) :
  configuration_error L options = Some msg ->
  exit_status (snd (main L (S fuel) options)) = Some 1
  /\ (str_in (Options.algorithm options) supported_algorithms = false ->
      main L (S fuel) options = ([], Raised (SystemExit msg)))
  /\ (str_in (Options.algorithm options) supported_algorithms = true ->
      In (Options.algorithm options) ["X11"; "X13"; "X15"]%string
      /\ (forall out block_header,
            setup L options = (out, Return block_header) ->
            main L (S fuel) options
            = (out ++ [Line "Searching for genesis hash.."], Raised (SystemExit msg))
            /\ exists script_hex tx,
                 out = Line script_hex
                         :: block_info options (sha256 L (sha256 L tx)))
      /\ (forall out e,
            setup L options = (out, Raised e) ->
            main L (S fuel) options = (out, Raised e))).
Proof.
  unfold configuration_error. intros Hcfg.
  destruct (str_in (Options.algorithm options) supported_algorithms) eqn:Hsup;
    cbn [negb] in Hcfg.
  - destruct (backend_missing L (Options.algorithm options)) eqn:Hmiss;
      [| discriminate].
    injection Hcfg as <-.
    assert (Halg : In (Options.algorithm options) ["X11"; "X13"; "X15"]%string).
    { unfold backend_missing in Hmiss. cbn [In].
      destruct (String.eqb_spec (Options.algorithm options) "X11"); [now left |].
      destruct (String.eqb_spec (Options.algorithm options) "X13"); [now right; left |].
      destruct (String.eqb_spec (Options.algorithm options) "X15");
        [now right; right; left | discriminate]. }
    assert (Hget : get_algorithm options = Ok (Options.algorithm options))
      by (unfold get_algorithm; now rewrite Hsup).
    assert (Hsearch : forall block_header,
      bind (generate_hash L (S fuel) block_header (Options.algorithm options)
              (Options.nonce options) (Options.bits options))
           (fun r => announce_found_genesis (fst r) (snd r))
      = ([Line "Searching for genesis hash.."],
         Raised (SystemExit (missing_message (Options.algorithm options))))).
    { intros block_header.
      rewrite generate_hash_unfold, search_step, missing_backend_exits by assumption.
      reflexivity. }
    rewrite (main_setup L (S fuel) options _ Hget).
    pose proof (setup_no_fuel L options) as Hfuel.
    destruct (setup L options) as [out [block_header | e |]] eqn:Hset;
      cbn [snd] in Hfuel; [| | congruence].
    + cbn [bind]. rewrite Hsearch. cbn [snd exit_status].
      split; [reflexivity | split; [discriminate |]].
      intros _. split; [exact Halg | split].
      * intros out' h' [= <- <-]. split; [reflexivity |].
        destruct (setup_prints L options out block_header Hset) as (t & tx & E & _).
        now exists t, tx.
      * intros out' e' [=].
    + cbn [bind snd exit_status].
      split; [reflexivity | split; [discriminate |]].
      intros _. split; [exact Halg | split].
      * intros out' h' [=].
      * intros out' e' [= <- <-]. reflexivity.
  - injection Hcfg as <-.
    assert (Hmain : main L (S fuel) options = ([], Raised (SystemExit unsupported_message))).
    { unfold main, get_algorithm. rewrite Hsup. reflexivity. }
    rewrite Hmain. cbn [snd exit_status].
    split; [reflexivity | split; [reflexivity | discriminate]].
Qed.

(** C3 fails as stated: with X11 selected and the module [xcoin_hash]
    missing, the program exits only inside the first iteration of the search
    loop, after it has printed the input script, the six lines of block
    information and the search banner. *)
Lemma main_x11_missing_prints_first :
  configuration_error installed x11_options
    = Some "Cannot run X11 algorithm: module xcoin_hash not found"%string
  /\ main installed 1 x11_options
     = ([Line "04ffff001d0104455468652054696d65732030332f4a616e2f32303039204368616e63656c6c6f72206f6e206272696e6b206f66207365636f6e64206261696c6f757420666f722062616e6b73";
         Line "algorithm: X11";
         Line "merkle hash: 4a5e1e4baab89f3a32518a88c31bc87f618f76673e2cc77ab2127b7afdeda33b";
         Line "pszTimestamp: The Times 03/Jan/2009 Chancellor on brink of second bailout for banks";
         Line "pubkey: 04678afdb0fe5548271967f1a67130b7105cd6a828e03909a67962e0ea1f61deb649f6bc3f4cef38c4f35504e51ec112de5c384df7ba0b8d578a4c702b6bf11d5f";
         Line "time: 1231006505";
         Line "bits: 0x1e0ffff0";
         Line "Searching for genesis hash.."],
        Raised (SystemExit "Cannot run X11 algorithm: module xcoin_hash not found"))
  /\ fst (main installed 1 x11_options) <> [].
Proof.
  assert (E : main installed 1 x11_options
     = ([Line "04ffff001d0104455468652054696d65732030332f4a616e2f32303039204368616e63656c6c6f72206f6e206272696e6b206f66207365636f6e64206261696c6f757420666f722062616e6b73";
         Line "algorithm: X11";
         Line "merkle hash: 4a5e1e4baab89f3a32518a88c31bc87f618f76673e2cc77ab2127b7afdeda33b";
         Line "pszTimestamp: The Times 03/Jan/2009 Chancellor on brink of second bailout for banks";
         Line "pubkey: 04678afdb0fe5548271967f1a67130b7105cd6a828e03909a67962e0ea1f61deb649f6bc3f4cef38c4f35504e51ec112de5c384df7ba0b8d578a4c702b6bf11d5f";
         Line "time: 1231006505";
         Line "bits: 0x1e0ffff0";
         Line "Searching for genesis hash.."],
        Raised (SystemExit "Cannot run X11 algorithm: module xcoin_hash not found")))
    by (vm_compute; reflexivity).
  split; [vm_compute; reflexivity | split; [exact E | rewrite E; discriminate]].
Qed.

Lemma main_configuration_error_witness :
  configuration_error installed x11_options
    = Some "Cannot run X11 algorithm: module xcoin_hash not found"%string
  /\ exit_status (snd (main installed 1 x11_options)) = Some 1.
Proof.
  assert (H : configuration_error installed x11_options
              = Some "Cannot run X11 algorithm: module xcoin_hash not found"%string)
    by (vm_compute; reflexivity).
  split; [exact H |].
  exact (proj1 (main_configuration_error installed 0 x11_options _ H)).
Defined.


(* ================================================================== *)
(** * Further properties of the program *)

(** ** [bytes.fromhex] on texts that are not pairs of digits *)

Lemma hex_digit_not_space (n : Z) : 0 <= n < 16 -> is_space (hex_digit n) = false.
Proof.
  intros H.
  assert (A : forallb (fun k => negb (is_space (hex_digit (Z.of_nat k)))) (seq 0 16) = true)
    by (vm_compute; reflexivity).
  rewrite forallb_forall in A.
  specialize (A (Z.to_nat n)). rewrite Z2Nat.id in A by lia.
  apply negb_true_iff, A, in_seq. lia.
Qed.

(** The only exception [bytes.fromhex] raises is [ValueError]. *)
Lemma fromhex_raises (n : nat) :
  forall s e, (String.length s <= n)%nat -> fromhex s = Raise e -> e = ValueError.
Proof.
  induction n as [| n IH]; intros s e Hlen H.
  - destruct s; [discriminate | simpl in Hlen; lia].
  - destruct s as [| c s]; [discriminate |].
    simpl in Hlen. cbn [fromhex] in H.
    destruct (is_space c); [apply (IH s); [lia | exact H] |].
    destruct (hex_value c) as [hi |]; [| congruence].
    destruct s as [| d s]; [congruence |].
    destruct (hex_value d) as [lo |]; [| congruence].
    destruct (fromhex s) as [bs | e'] eqn:E; [discriminate |].
    injection H as <-. apply (IH s); [simpl in Hlen; lia | exact E].
Qed.

(** A text [bytes.fromhex] accepts holds digits and blanks only. *)
Lemma fromhex_chars (n : nat) :
  forall s bs, (String.length s <= n)%nat -> fromhex s = Ok bs ->
  forall c, In c (list_ascii_of_string s) -> hex_or_space c = true.
Proof.
  unfold hex_or_space.
  induction n as [| n IH]; intros s bs Hlen H c Hc.
  - destruct s; [destruct Hc | simpl in Hlen; lia].
  - destruct s as [| a s]; [destruct Hc |].
    simpl in Hlen. cbn [fromhex] in H. cbn [list_ascii_of_string In] in Hc.
    destruct (is_space a) eqn:Ea.
    + destruct Hc as [<- | Hc]; [now rewrite Ea |].
      apply (IH s bs); [lia | exact H | exact Hc].
    + destruct (hex_value a) as [hi |] eqn:Ha; [| discriminate].
      destruct s as [| d s]; [discriminate |].
      destruct (hex_value d) as [lo |] eqn:Hd; [| discriminate].
      destruct (fromhex s) as [bs' |] eqn:E; [| discriminate].
      destruct Hc as [<- | Hc]; [rewrite Ha; apply orb_true_r |].
      cbn [list_ascii_of_string In] in Hc.
      destruct Hc as [<- | Hc]; [rewrite Hd; apply orb_true_r |].
      apply (IH s bs'); [simpl in Hlen; lia | exact E | exact Hc].
Qed.

Lemma fromhex_bad_char (s : string) (c : ascii) :
  In c (list_ascii_of_string s) -> hex_or_space c = false ->
  fromhex s = Raise ValueError.
Proof.
  intros Hc Hbad.
  destruct (fromhex s) as [bs | e] eqn:E.
  - rewrite (fromhex_chars (String.length s) s bs (le_n _) E c Hc) in Hbad.
    discriminate.
  - now rewrite (fromhex_raises (String.length s) s e (le_n _) E).
Qed.

Lemma fromhex_pair (c d : ascii) (hi lo : Z) (s : string) :
  is_space c = false -> hex_value c = Some hi -> hex_value d = Some lo ->
  fromhex (String c (String d s))
  = match fromhex s with Ok bs => Ok (byte_of_Z (16 * hi + lo) :: bs) | r => r end.
Proof.
  intros Hs Hc Hd. cbn [fromhex]. now rewrite Hs, Hc, Hd.
Qed.

(** One digit too many: a digit in front of whole bytes leaves the last
    digit without a partner. *)
Lemma fromhex_odd (bs : bytes) :
  forall d hi, is_space d = false -> hex_value d = Some hi ->
  fromhex (String d (hex bs)) = Raise ValueError.
Proof.
  induction bs as [| b bs IH]; intros d hi Hs Hd.
  - cbn [hex fromhex]. now rewrite Hs, Hd.
  - pose proof (Z_of_byte_range b) as Hb.
    change (hex (b :: bs)) with
      (String (hex_digit (Z.shiftr (Z_of_byte b) 4))
         (String (hex_digit (Z.land (Z_of_byte b) 15)) (hex bs))).
    rewrite (fromhex_pair d _ hi _ _ Hs Hd (hex_value_digit _ (nibble_hi _ Hb))).
    rewrite (IH _ (Z.land (Z_of_byte b) 15)
               (hex_digit_not_space _ (nibble_lo _ Hb))
               (hex_value_digit _ (nibble_lo _ Hb))).
    reflexivity.
Qed.

Lemma in_list_ascii_app (a b : string) (c : ascii) :
  In c (list_ascii_of_string (a ++ b)) <->
  In c (list_ascii_of_string a) \/ In c (list_ascii_of_string b).
Proof.
  induction a as [| x a IH]; cbn [append list_ascii_of_string In].
  - tauto.
  - rewrite IH. tauto.
Qed.

(** ** The output script *)

(** X1: the output script of a key given in hexadecimal is 41, the key
    bytes, ac, whatever the number of key bytes: the length of the key is
    not checked, and the script has two bytes more than the key. *)
Theorem create_output_script_hex (key : bytes) :
  create_output_script (hex key) = Ok ([x41] ++ key ++ [xac])
  /\ List.length ([x41] ++ key ++ [xac]) = (List.length key + 2)%nat.
Proof.
  split.
  - unfold create_output_script.
    change "41"%string with (hex [x41]). change "ac"%string with (hex [xac]).
    rewrite <- !hex_app. apply fromhex_hex.
  - rewrite !length_app. simpl. lia.
Qed.

(** X2: a key text holding a character that is neither a hexadecimal digit
    nor ASCII white space is refused with [ValueError]. *)
Theorem create_output_script_bad_char (pubkey : string) (c : ascii) :
  In c (list_ascii_of_string pubkey) ->
  hex_or_space c = false ->
  create_output_script pubkey = Raise ValueError.
Proof.
  intros Hc Hbad. unfold create_output_script.
  apply (fromhex_bad_char _ c); [| exact Hbad].
  apply in_list_ascii_app. right. apply in_list_ascii_app. now left.
Qed.

Lemma create_output_script_bad_char_witness :
  In "g"%char (list_ascii_of_string "04g7")
  /\ hex_or_space "g" = false
  /\ create_output_script "04g7" = Raise ValueError.
Proof.
  assert (H1 : In "g"%char (list_ascii_of_string "04g7"))
    by (right; right; left; reflexivity).
  assert (H2 : hex_or_space "g" = false) by reflexivity.
  split; [exact H1 | split; [exact H2 |]].
  exact (create_output_script_bad_char "04g7" "g" H1 H2).
Defined.

(** X3: a key text with an odd number of digits is refused with
    [ValueError]: one more digit in front of whole bytes. *)
Theorem create_output_script_odd (key : bytes) (d : ascii) (hi : Z) :
  is_space d = false ->
  hex_value d = Some hi ->
  create_output_script (String d (hex key)) = Raise ValueError.
Proof.
  intros Hs Hd. unfold create_output_script.
  change "41"%string with (hex [x41]). change "ac"%string with (hex [xac]).
  change (String d (hex key) ++ hex [xac])%string
    with (String d (hex key ++ hex [xac])).
  rewrite <- hex_app, fromhex_hex_app, (fromhex_odd _ d hi Hs Hd). reflexivity.
Qed.

Lemma create_output_script_odd_witness :
  is_space "0" = false
  /\ hex_value "0" = Some 0
  /\ create_output_script (String "0" (hex [x04; x67])) = Raise ValueError.
Proof.
  split; [reflexivity | split; [reflexivity |]].
  exact (create_output_script_odd [x04; x67] "0" 0 eq_refl eq_refl).
Defined.

(** ** When the transaction and the header can be built *)

Lemma pack_q_inv (v : Z) (b : bytes) :
  pack_q v = Ok b -> - 2 ^ 63 <= v < 2 ^ 63 /\ b = le_bytes 8 v.
Proof.
  unfold pack_q. destruct (Z.leb_spec (- 2 ^ 63) v); [| discriminate].
  destruct (Z.ltb_spec v (2 ^ 63)); [| discriminate].
  cbn [andb]. intros E. split; [lia | congruence].
Qed.

Lemma pack_q_error (v : Z) : ~ - 2 ^ 63 <= v < 2 ^ 63 -> pack_q v = Raise StructError.
Proof.
  intros H. unfold pack_q.
  destruct (Z.leb_spec (- 2 ^ 63) v); [| reflexivity].
  destruct (Z.ltb_spec v (2 ^ 63)); [lia | reflexivity].
Qed.

Lemma pack_B_error (v : Z) : ~ 0 <= v < 256 -> pack_B v = Raise StructError.
Proof.
  intros H. unfold pack_B.
  destruct (Z.leb_spec 0 v); [| reflexivity].
  destruct (Z.ltb_spec v 256); [lia | reflexivity].
Qed.

(** [create_transaction] on any arguments. *)
Lemma create_transaction_eval (input_script output_script : bytes) (options : Options.t) :
  create_transaction input_script output_script options =
  match pack_q (Options.value options) with
  | Raise e => Raise e
  | Ok _ =>
      if (List.length input_script <=? 255)%nat && (List.length output_script =? 67)%nat
      then Ok (spec_transaction input_script output_script (Options.value options))
      else Raise FieldError
  end.
Proof.
  unfold create_transaction.
  destruct (parse_zeros (transaction (List.length input_script))
              (127 + List.length input_script)) as (tx & Htx & Hkeys);
    [simpl; lia |].
  rewrite Htx. clear Htx.
  unfold transaction in Hkeys. cbn [map fst] in Hkeys.
  repeat match type of Hkeys with
         | map fst _ = _ :: _ =>
             apply keys_cons in Hkeys; destruct Hkeys as (? & ? & -> & Hkeys)
         end.
  apply map_eq_nil in Hkeys. subst.
  destruct (pack_q (Options.value options)) as [v | e] eqn:Ev.
  - apply pack_q_inv in Ev. destruct Ev as [_ ->].
    cbn [rbind pack_I pack_qqqq pack_q].
    cbn -[le_bytes repeat Nat.eqb Nat.leb List.length Z.of_nat pack_B pack_BE_L].
    rewrite !length_app, !le_bytes_length.
    repeat rewrite Nat.eqb_refl.
    destruct (Nat.leb_spec (List.length input_script) 255) as [Hin | Hin].
    + rewrite (pack_B_ok (Z.of_nat (List.length input_script))) by lia.
      destruct (Nat.eqb_spec (List.length output_script) 67) as [Hout | Hout].
      * cbn -[le_bytes repeat Z.of_nat]. reflexivity.
      * cbn -[le_bytes repeat Z.of_nat]. reflexivity.
    + rewrite (pack_B_error (Z.of_nat (List.length input_script))) by lia.
      cbn -[le_bytes repeat Z.of_nat]. reflexivity.
  - cbn [rbind pack_I pack_qqqq pack_q].
    cbn -[le_bytes repeat Nat.eqb Nat.leb List.length Z.of_nat pack_B pack_BE_L].
    reflexivity.
Qed.

(** X4: [create_transaction] returns a transaction exactly when the input
    script has at most 255 bytes, the output script exactly 67 and the value
    fits a signed 64-bit integer, and then it is the fixed layout.  A value
    out of range raises [struct.error] whatever the scripts are; with a
    value in range, a script of the wrong size raises [FieldError]. *)
Theorem create_transaction_outcome (input_script output_script : bytes)
    (options : Options.t) :
  (forall tx,
     create_transaction input_script output_script options = Ok tx <->
     (List.length input_script <= 255)%nat
     /\ List.length output_script = 67%nat
     /\ - 2 ^ 63 <= Options.value options < 2 ^ 63
     /\ tx = spec_transaction input_script output_script (Options.value options))
  /\ (~ - 2 ^ 63 <= Options.value options < 2 ^ 63 ->
      create_transaction input_script output_script options = Raise StructError)
  /\ (- 2 ^ 63 <= Options.value options < 2 ^ 63 ->
      (255 < List.length input_script)%nat \/ List.length output_script <> 67%nat ->
      create_transaction input_script output_script options = Raise FieldError).
Proof.
  rewrite create_transaction_eval.
  split; [| split].
  - intros tx. split.
    + destruct (pack_q (Options.value options)) as [v | e] eqn:Ev; [| discriminate].
      apply pack_q_inv in Ev. destruct Ev as [Hv _].
      destruct (Nat.leb_spec (List.length input_script) 255);
        destruct (Nat.eqb_spec (List.length output_script) 67);
        cbn [andb]; try discriminate.
      intros [= <-]. auto.
    + intros (Hin & Hout & Hv & ->).
      rewrite pack_q_ok by exact Hv.
      apply Nat.leb_le in Hin. rewrite Hin, Hout. reflexivity.
  - intros Hv. now rewrite pack_q_error.
  - intros Hv Hbad. rewrite pack_q_ok by exact Hv.
    destruct (Nat.leb_spec (List.length input_script) 255);
      destruct (Nat.eqb_spec (List.length output_script) 67);
      cbn [andb]; try reflexivity.
    destruct Hbad; [lia | contradiction].
Qed.

(** [create_block_header] on any arguments. *)
Lemma create_block_header_eval (hash_merkle_root : bytes) (time_value bits nonce : Z) :
  create_block_header hash_merkle_root time_value bits nonce =
  match pack_I time_value, pack_I bits, pack_I nonce with
  | Ok _, Ok _, Ok _ =>
      if (List.length hash_merkle_root =? 32)%nat
      then Ok (spec_block_header hash_merkle_root time_value bits nonce)
      else Raise FieldError
  | Raise e, _, _ => Raise e
  | Ok _, Raise e, _ => Raise e
  | Ok _, Ok _, Raise e => Raise e
  end.
Proof.
  unfold create_block_header.
  change (Construct.parse block_header (repeat x00 80))
    with (Ok (map (fun f => (fst f, Construct.VBytes (repeat x00 (Construct.sizeof (snd f)))))
                block_header)).
  destruct (pack_I time_value) as [t | e] eqn:Et; [| reflexivity].
  destruct (pack_I bits) as [b | e] eqn:Eb; [| reflexivity].
  destruct (pack_I nonce) as [n | e] eqn:En; [| reflexivity].
  apply pack_I_inv in Et, Eb, En.
  destruct Et as [_ ->], Eb as [_ ->], En as [_ ->].
  cbn [rbind pack_I pack_qqqq pack_q].
  cbn -[le_bytes repeat Nat.eqb List.length].
  rewrite !le_bytes_length. cbn [Nat.eqb].
  destruct (Nat.eqb_spec (List.length hash_merkle_root) 32); reflexivity.
Qed.

(** X5: [create_block_header] returns a header exactly when the merkle root
    has 32 bytes and time, bits and nonce are in [0, 2^32), and then it is
    the 80-byte layout.  A field out of range raises [struct.error] whatever
    the merkle root is; with the fields in range, a merkle root of another
    length raises [FieldError]. *)
Theorem create_block_header_outcome (hash_merkle_root : bytes)
    (time_value bits nonce : Z) :
  (forall header,
     create_block_header hash_merkle_root time_value bits nonce = Ok header <->
     List.length hash_merkle_root = 32%nat
     /\ 0 <= time_value < 2 ^ 32 /\ 0 <= bits < 2 ^ 32 /\ 0 <= nonce < 2 ^ 32
     /\ header = spec_block_header hash_merkle_root time_value bits nonce)
  /\ (~ (0 <= time_value < 2 ^ 32 /\ 0 <= bits < 2 ^ 32 /\ 0 <= nonce < 2 ^ 32) ->
      create_block_header hash_merkle_root time_value bits nonce = Raise StructError)
  /\ (0 <= time_value < 2 ^ 32 -> 0 <= bits < 2 ^ 32 -> 0 <= nonce < 2 ^ 32 ->
      List.length hash_merkle_root <> 32%nat ->
      create_block_header hash_merkle_root time_value bits nonce = Raise FieldError).
Proof.
  rewrite create_block_header_eval.
  split; [| split].
  - intros header. split.
    + destruct (pack_I time_value) as [t | e] eqn:Et; [| discriminate].
      destruct (pack_I bits) as [b | e] eqn:Eb; [| discriminate].
      destruct (pack_I nonce) as [n | e] eqn:En; [| discriminate].
      apply pack_I_inv in Et, Eb, En.
      destruct (Nat.eqb_spec (List.length hash_merkle_root) 32); [| discriminate].
      intros [= <-]. tauto.
    + intros (Hroot & Ht & Hb & Hn & ->).
      rewrite !pack_I_ok, Hroot by assumption. reflexivity.
  - intros Hbad.
    destruct (pack_I time_value) as [t | e] eqn:Et.
    + destruct (pack_I bits) as [b | e] eqn:Eb.
      * destruct (pack_I nonce) as [n | e] eqn:En.
        -- apply pack_I_inv in Et, Eb, En. tauto.
        -- unfold pack_I in En. destruct ((0 <=? nonce) && (nonce <? 2 ^ 32)); congruence.
      * unfold pack_I in Eb. destruct ((0 <=? bits) && (bits <? 2 ^ 32)); congruence.
    + unfold pack_I in Et.
      destruct ((0 <=? time_value) && (time_value <? 2 ^ 32)); congruence.
  - intros Ht Hb Hn Hroot. rewrite !pack_I_ok by assumption.
    destruct (Nat.eqb_spec (List.length hash_merkle_root) 32); [contradiction | reflexivity].
Qed.

(** ** From the setup to the search and the announcement *)

Lemma create_block_header_inv (hash_merkle_root : bytes) (time_value bits nonce : Z)
    (header : bytes) :
  create_block_header hash_merkle_root time_value bits nonce = Ok header ->
  List.length hash_merkle_root = 32%nat
  /\ 0 <= time_value < 2 ^ 32 /\ 0 <= bits < 2 ^ 32 /\ 0 <= nonce < 2 ^ 32
  /\ header = spec_block_header hash_merkle_root time_value bits nonce.
Proof.
  rewrite create_block_header_eval.
  destruct (pack_I time_value) as [t | e] eqn:Et; [| discriminate].
  destruct (pack_I bits) as [b | e] eqn:Eb; [| discriminate].
  destruct (pack_I nonce) as [n | e] eqn:En; [| discriminate].
  apply pack_I_inv in Et, Eb, En.
  destruct (Nat.eqb_spec (List.length hash_merkle_root) 32); [| discriminate].
  intros [= <-]. tauto.
Qed.

(** The header layout ends with the nonce: packing the same nonce again
    changes nothing. *)
Lemma spec_block_header_nonce (merkle_root : bytes) (time bits nonce : Z) :
  0 <= nonce < 2 ^ 32 ->
  set_nonce (spec_block_header merkle_root time bits nonce) nonce
  = Ok (spec_block_header merkle_root time bits nonce).
Proof.
  intros Hn. unfold set_nonce. rewrite pack_I_ok by exact Hn. cbn [rbind].
  assert (E : spec_block_header merkle_root time bits nonce
              = (le_bytes 4 1 ++ repeat x00 32 ++ merkle_root
                 ++ le_bytes 4 time ++ le_bytes 4 bits) ++ le_bytes 4 nonce).
  { unfold spec_block_header. now rewrite <- !app_assoc. }
  rewrite E at 1. rewrite drop_last4_app by apply le_bytes_length.
  now rewrite <- E.
Qed.

Lemma setup_header (L : Libs) (options : Options.t) (out : list event)
    (block_header : bytes) :
  setup L options = (out, Return block_header) ->
  exists tx,
    create_block_header (sha256 L (sha256 L tx)) (Options.time options)
      (Options.bits options) (Options.nonce options) = Ok block_header.
Proof.
  unfold setup, create_input_script.
  destruct (encode_utf8 (Options.timestamp options)) as [encoded | e];
    [| discriminate].
  rewrite bind_lift_ok, bind_assoc, bind_print.
  match goal with |- context [lift (fromhex ?s)] => destruct (fromhex s) as [script | e] end;
    [| discriminate].
  rewrite bind_lift_ok.
  destruct (create_output_script (Options.pubkey options)) as [output_script | e];
    [| discriminate].
  rewrite bind_lift_ok.
  destruct (create_transaction script output_script options) as [tx | e];
    [| discriminate].
  rewrite bind_lift_ok.
  destruct (create_block_header (sha256 L (sha256 L tx)) (Options.time options)
              (Options.bits options) (Options.nonce options)) as [header | e] eqn:E;
    cbn; [| discriminate].
  intros [= _ <-]. now exists tx.
Qed.

(** X6: the header [main] hands to the search is 80 bytes long and its last
    four bytes are the packed start nonce, which is therefore in [0, 2^32):
    the first iteration of the search hashes the header at the start
    nonce. *)
Theorem setup_header_at_start_nonce (L : Libs) (options : Options.t)
    (out : list event) (block_header : bytes) :
  setup L options = (out, Return block_header) ->
  List.length block_header = 80%nat
  /\ 0 <= Options.nonce options < 2 ^ 32
  /\ set_nonce block_header (Options.nonce options) = Ok block_header
  /\ skipn 76 block_header = le_bytes 4 (Options.nonce options).
Proof.
  intros H. apply setup_header in H. destruct H as (tx & H).
  apply create_block_header_inv in H.
  destruct H as (Hroot & _ & _ & Hn & ->).
  split; [now apply spec_block_header_length | split; [exact Hn | split]].
  - now apply spec_block_header_nonce.
  - unfold spec_block_header.
    rewrite !app_assoc. rewrite skipn_app.
    rewrite !length_app, !le_bytes_length, repeat_length, Hroot.
    cbn [Nat.add Nat.sub].
    rewrite skipn_all2
      by (rewrite !length_app, !le_bytes_length, repeat_length, Hroot; cbn; lia).
    reflexivity.
Qed.

Lemma setup_bitcoin :
  setup installed bitcoin
  = ([Line "04ffff001d0104455468652054696d65732030332f4a616e2f32303039204368616e63656c6c6f72206f6e206272696e6b206f66207365636f6e64206261696c6f757420666f722062616e6b73";
      Line "algorithm: SHA256";
      Line "merkle hash: 4a5e1e4baab89f3a32518a88c31bc87f618f76673e2cc77ab2127b7afdeda33b";
      Line "pszTimestamp: The Times 03/Jan/2009 Chancellor on brink of second bailout for banks";
      Line "pubkey: 04678afdb0fe5548271967f1a67130b7105cd6a828e03909a67962e0ea1f61deb649f6bc3f4cef38c4f35504e51ec112de5c384df7ba0b8d578a4c702b6bf11d5f";
      Line "time: 1231006505";
      Line "bits: 0x1d00ffff"],
     Return bitcoin_header).
Proof. vm_compute. reflexivity. Qed.

Lemma setup_header_at_start_nonce_witness :
  snd (setup installed bitcoin) = Return bitcoin_header
  /\ set_nonce bitcoin_header (Options.nonce bitcoin) = Ok bitcoin_header.
Proof.
  split; [now rewrite setup_bitcoin |].
  exact (proj1 (proj2 (proj2
    (setup_header_at_start_nonce installed bitcoin _ _ setup_bitcoin)))).
Defined.



(** ** Digests as numbers *)

Lemma be_int_acc_bounds (p : bytes) :
  forall acc, 0 <= acc ->
  0 <= fold_left (fun a b => 256 * a + Z_of_byte b) p acc
    < (acc + 1) * 256 ^ Z.of_nat (List.length p).
Proof.
  induction p as [| b p IH]; intros acc Hacc.
  - cbn [fold_left List.length Z.of_nat]. rewrite Z.pow_0_r. lia.
  - pose proof (Z_of_byte_range b) as Hb.
    cbn [fold_left List.length].
    specialize (IH (256 * acc + Z_of_byte b) ltac:(lia)).
    rewrite Nat2Z.inj_succ, Z.pow_succ_r by lia.
    assert (0 < 256 ^ Z.of_nat (List.length p)) by (apply Z.pow_pos_nonneg; lia).
    nia.
Qed.

Lemma be_int_bounds (p : bytes) : 0 <= be_int p < 256 ^ Z.of_nat (List.length p).
Proof.
  pose proof (be_int_acc_bounds p 0 ltac:(lia)) as H. unfold be_int. lia.
Qed.

Lemma Qltb_true (x y : Q) : (x < y)%Q -> Qltb x y = true.
Proof.
  intros H. unfold Qltb. apply negb_true_iff.
  destruct (Qle_bool y x) eqn:E; [| reflexivity].
  apply Qle_bool_iff in E. exfalso. exact (Qlt_not_le _ _ H E).
Qed.

(** ** Searches that cannot succeed, and searches that succeed at once *)

Lemma generate_hashes_unknown (L : Libs) (data_block : bytes) (algorithm : string) :
  ~ In algorithm supported_algorithms ->
  generate_hashes_from_block L data_block algorithm
  = Ok (rev (sha256 L (sha256 L data_block)), []).
Proof.
  intros H. unfold generate_hashes_from_block.
  unfold supported_algorithms in H. cbn [In] in H.
  destruct (String.eqb_spec algorithm "scrypt"); [subst; tauto |].
  destruct (String.eqb_spec algorithm "SHA256"); [subst; tauto |].
  destruct (String.eqb_spec algorithm "X11"); [subst; tauto |].
  destruct (String.eqb_spec algorithm "X13"); [subst; tauto |].
  destruct (String.eqb_spec algorithm "X15"); [subst; tauto |].
  reflexivity.
Qed.

(** X8: called with a name that is none of the five, the search gets an
    empty proof-of-work digest, and reading it as a number raises
    [ValueError] in the first iteration: the banner (and the progress report
    if one is due) is printed and nothing is returned. *)
Theorem generate_hash_unknown_algorithm (L : Libs) (fuel : nat) (data_block : bytes)
    (algorithm : string) (start_nonce bits : Z) :
  ~ In algorithm supported_algorithms ->
  generate_hash L (S fuel) data_block algorithm start_nonce bits
  = (Line "Searching for genesis hash.." :: progress start_nonce, Raised ValueError).
Proof.
  intros H.
  rewrite generate_hash_unfold, search_step, generate_hashes_unknown by exact H.
  reflexivity.
Qed.

Lemma generate_hash_unknown_algorithm_witness :
  ~ In "sha256"%string supported_algorithms
  /\ generate_hash installed 1 bitcoin_header "sha256" 0 0x1d00ffff
     = ([Line "Searching for genesis hash.."], Raised ValueError).
Proof.
  assert (H : ~ In "sha256"%string supported_algorithms).
  { unfold supported_algorithms. cbn [In].
    intros [E | [E | [E | [E | [E | []]]]]]; discriminate E. }
  split; [exact H |].
  exact (generate_hash_unknown_algorithm installed 0 bitcoin_header "sha256" 0
           0x1d00ffff H).
Defined.

Lemma decode_target_zero_mantissa (bits : Z) :
  Z.land bits 0xffffff = 0 -> (decode_target bits == 0)%Q.
Proof.
  intros H. unfold decode_target. rewrite H. apply Qmult_0_l.
Qed.

(** X9: when the mantissa of [bits] is zero the target is zero and no digest
    is below it: the search returns for no header, algorithm, start nonce or
    amount of iterations. *)
Theorem generate_hash_zero_mantissa (L : Libs) (fuel : nat) (data_block : bytes)
    (algorithm : string) (start_nonce bits : Z) :
  Z.land bits 0xffffff = 0 ->
  forall result,
    snd (generate_hash L fuel data_block algorithm start_nonce bits) <> Return result.
Proof.
  intros Hzero [d n] Hrun.
  rewrite generate_hash_unfold in Hrun. cbn [snd] in Hrun.
  destruct (search L fuel algorithm (decode_target bits) data_block start_nonce)
    as [out r] eqn:Er.
  cbn [snd] in Hrun. subst r.
  apply search_returns in Er.
  destruct Er as (_ & _ & (s & p & _ & Hmeets & _) & _).
  apply is_genesis_hash_true in Hmeets. destruct Hmeets as [_ Hlt].
  rewrite (decode_target_zero_mantissa bits Hzero) in Hlt.
  pose proof (be_int_bounds p) as [Hp _].
  unfold Qlt in Hlt. cbn in Hlt. lia.
Qed.

Lemma generate_hash_zero_mantissa_witness :
  Z.land 0x1d000000 0xffffff = 0
  /\ forall result,
       snd (generate_hash installed 3 bitcoin_header "SHA256" 2083236893 0x1d000000)
       <> Return result.
Proof.
  split; [reflexivity |].
  exact (generate_hash_zero_mantissa installed 3 bitcoin_header "SHA256" 2083236893
           0x1d000000 eq_refl).
Defined.

(** X10: when the target is at least 2^256 and the proof-of-work digest of
    the given block has between 1 and 32 bytes, the first iteration
    succeeds: the search returns the start nonce with the digest of that
    block. *)
Theorem generate_hash_trivial_target (L : Libs) (fuel : nat) (data_block : bytes)
    (algorithm : string) (start_nonce bits : Z) (s p : bytes) :
  (inject_Z (2 ^ 256) <= decode_target bits)%Q ->
  generate_hashes_from_block L data_block algorithm = Ok (s, p) ->
  p <> [] ->
  (List.length p <= 32)%nat ->
  generate_hash L (S fuel) data_block algorithm start_nonce bits
  = (Line "Searching for genesis hash.." :: progress start_nonce,
     Return (if returns_pow algorithm then p else s, start_nonce)).
Proof.
  intros Htarget Hh Hne Hlen.
  rewrite generate_hash_unfold, search_step, Hh.
  rewrite is_genesis_hash_spec by exact Hne.
  rewrite Qltb_true; [reflexivity |].
  apply Qlt_le_trans with (y := inject_Z (2 ^ 256)); [| exact Htarget].
  rewrite <- Zlt_Qlt.
  pose proof (be_int_bounds p) as [_ Hp].
  apply Z.lt_le_trans with (m := 256 ^ Z.of_nat (List.length p)); [exact Hp |].
  change (2 ^ 256) with (256 ^ 32).
  apply Z.pow_le_mono_r; lia.
Qed.

Lemma bitcoin_header_999999_hashes :
  generate_hashes_from_block installed bitcoin_header_999999 "SHA256"
  = Ok (bitcoin_hash_999999, bitcoin_hash_999999).
Proof. vm_compute. reflexivity. Qed.

Lemma generate_hash_trivial_target_witness :
  (inject_Z (2 ^ 256) <= decode_target 0x2200ffff)%Q
  /\ generate_hash installed 1 bitcoin_header_999999 "SHA256" 999999 0x2200ffff
     = (Line "Searching for genesis hash.." :: progress 999999,
        Return (bitcoin_hash_999999, 999999)).
Proof.
  assert (H1 : (inject_Z (2 ^ 256) <= decode_target 0x2200ffff)%Q)
    by (vm_compute; discriminate).
  assert (H2 : bitcoin_hash_999999 <> []) by (vm_compute; discriminate).
  assert (H3 : (List.length bitcoin_hash_999999 <= 32)%nat)
    by (apply Nat.leb_le; vm_compute; reflexivity).
  split; [exact H1 |].
  exact (generate_hash_trivial_target installed 0 bitcoin_header_999999 "SHA256"
           999999 0x2200ffff _ _ H1 bitcoin_header_999999_hashes H2 H3).
Defined.

(** ** The search finds the least nonce, and what it prints on the way *)

(** X11: if the blocks at the nonces from the start nonce up to, but not
    including, [n] miss the target and the block at [n] meets it, the search
    given at least [n - start + 1] iterations returns [n] with the digest of
    the block at [n] (the nonces after the start nonce must be packable: at
    least 0 and below 2^32). *)
Theorem generate_hash_finds (L : Libs) (fuel : nat) (data_block : bytes)
    (algorithm : string) (start_nonce bits n : Z) (s p : bytes) :
  start_nonce <= n ->
  n = start_nonce \/ (0 <= start_nonce + 1 /\ n < 2 ^ 32) ->
  (Z.to_nat (n - start_nonce) < fuel)%nat ->
  (forall m, start_nonce <= m < n ->
     exists s' p',
       generate_hashes_from_block L (tested_block data_block start_nonce m) algorithm
         = Ok (s', p')
       /\ is_genesis_hash p' (decode_target bits) = Ok false) ->
  generate_hashes_from_block L (tested_block data_block start_nonce n) algorithm
    = Ok (s, p) ->
  is_genesis_hash p (decode_target bits) = Ok true ->
  snd (generate_hash L fuel data_block algorithm start_nonce bits)
  = Return (if returns_pow algorithm then p else s, n).
Proof.
  intros Hle Hrange Hfuel Hmiss Hh Hmeets.
  rewrite generate_hash_unfold. cbn [snd].
  now apply search_finds.
Qed.

Lemma bitcoin_previous_nonce_misses :
  generate_hashes_from_block installed
    (drop_last4 bitcoin_header ++ le_bytes 4 2083236892) "SHA256"
  = Ok (bytes_of_hex "8cdc343dc1ca87b0fae7d09a6537a536fec9784a3c4541b770bfb5881c5d66d9",
        bytes_of_hex "8cdc343dc1ca87b0fae7d09a6537a536fec9784a3c4541b770bfb5881c5d66d9")
  /\ is_genesis_hash
       (bytes_of_hex "8cdc343dc1ca87b0fae7d09a6537a536fec9784a3c4541b770bfb5881c5d66d9")
       (decode_target 0x1d00ffff) = Ok false.
Proof. split; vm_compute; reflexivity. Qed.

Lemma bitcoin_nonce_meets :
  generate_hashes_from_block installed
    (tested_block (drop_last4 bitcoin_header ++ le_bytes 4 2083236892)
       2083236892 2083236893) "SHA256"
  = Ok (bitcoin_hash, bitcoin_hash)
  /\ is_genesis_hash bitcoin_hash (decode_target 0x1d00ffff) = Ok true.
Proof. split; vm_compute; reflexivity. Qed.

Lemma generate_hash_finds_witness :
  2083236892 <= 2083236893
  /\ snd (generate_hash installed 2 (drop_last4 bitcoin_header ++ le_bytes 4 2083236892)
            "SHA256" 2083236892 0x1d00ffff)
     = Return (bitcoin_hash, 2083236893).
Proof.
  assert (H1 : 2083236892 <= 2083236893) by discriminate.
  split; [exact H1 |].
  refine (generate_hash_finds installed 2
            (drop_last4 bitcoin_header ++ le_bytes 4 2083236892) "SHA256"
            2083236892 0x1d00ffff 2083236893 bitcoin_hash bitcoin_hash
            H1 _ _ _ (proj1 bitcoin_nonce_meets) (proj2 bitcoin_nonce_meets)).
  - right. split; [discriminate | reflexivity].
  - apply Nat.ltb_lt. vm_compute. reflexivity.
  - intros m Hm. assert (E : m = 2083236892) by lia. subst m.
    unfold tested_block. rewrite Z.eqb_refl.
    eexists _, _. exact bitcoin_previous_nonce_misses.
Defined.

Lemma nonces_succ (start : Z) (k : nat) :
  nonces start (S k) = start :: nonces (start + 1) k.
Proof.
  unfold nonces. cbn [seq map]. rewrite Z.add_0_r. f_equal.
  rewrite <- seq_shift, map_map. apply map_ext.
  intros i. lia.
Qed.

Lemma progress_filter (l : list Z) :
  flat_map progress l
  = map Progress (filter (fun m => m mod 1000000 =? 999999) l).
Proof.
  induction l as [| m l IH]; [reflexivity |].
  cbn [flat_map filter]. unfold progress at 1.
  destruct (m mod 1000000 =? 999999); cbn [map app]; now rewrite IH.
Qed.

Section Trace.

Variable L : Libs.
Variable algorithm : string.
Variable target : Q.

(** What a search that returns has printed. *)
Lemma search_trace (fuel : nat) :
  forall (data_block : bytes) (nonce : Z) (out : list event) (d : bytes) (n : Z),
  search L fuel algorithm target data_block nonce = (out, Return (d, n)) ->
  out = flat_map progress (nonces nonce (S (Z.to_nat (n - nonce)))).
Proof.
  induction fuel as [| fuel IH]; intros data_block nonce out d n Hrun.
  - discriminate.
  - rewrite search_step in Hrun.
    destruct (generate_hashes_from_block L data_block algorithm)
      as [[s h] | e]; try discriminate.
    destruct (is_genesis_hash h target) as [[|] | e]; try discriminate.
    + injection Hrun as <- _ <-.
      rewrite Z.sub_diag. cbn [Z.to_nat]. rewrite nonces_succ.
      cbn. now rewrite app_nil_r.
    + destruct (set_nonce data_block (nonce + 1)) as [data' | e]; try discriminate.
      destruct (search L fuel algorithm target data' (nonce + 1))
        as [out' r] eqn:Er.
      cbn [fst snd] in Hrun. injection Hrun as <- ->.
      pose proof (search_returns L algorithm target fuel _ _ _ _ _ Er) as [Hle _].
      apply IH in Er. subst out'.
      replace (Z.to_nat (n - nonce)) with (S (Z.to_nat (n - (nonce + 1)))) by lia.
      rewrite (nonces_succ nonce). reflexivity.
Qed.

End Trace.

(** X12: a search that returns nonce [n] has printed the banner and then one
    progress report for each tested nonce [m], from the start nonce to [n],
    with [m mod 1000000 = 999999], in increasing order, and nothing else. *)
Theorem generate_hash_output (L : Libs) (fuel : nat) (data_block : bytes)
    (algorithm : string) (start_nonce bits : Z)
    (out : list event) (winning_digest : bytes) (n : Z) :
  generate_hash L fuel data_block algorithm start_nonce bits
    = (out, Return (winning_digest, n)) ->
  out = Line "Searching for genesis hash.."
        :: map Progress
             (filter (fun m => m mod 1000000 =? 999999)
                (nonces start_nonce (S (Z.to_nat (n - start_nonce))))).
Proof.
  rewrite generate_hash_unfold. intros Hrun.
  destruct (search L fuel algorithm (decode_target bits) data_block start_nonce)
    as [out' r] eqn:Er.
  cbn [fst snd] in Hrun. injection Hrun as <- ->.
  apply search_trace in Er. subst out'.
  now rewrite progress_filter.
Qed.

Lemma generate_hash_at_999999 :
  generate_hash installed 1 bitcoin_header_999999 "SHA256" 999999 0x2200ffff
  = ([Line "Searching for genesis hash.."; Progress 999999],
     Return (bitcoin_hash_999999, 999999)).
Proof. vm_compute. reflexivity. Qed.

Lemma generate_hash_output_witness :
  generate_hash installed 1 bitcoin_header_999999 "SHA256" 999999 0x2200ffff
    = ([Line "Searching for genesis hash.."; Progress 999999],
       Return (bitcoin_hash_999999, 999999))
  /\ [Line "Searching for genesis hash.."; Progress 999999]
     = Line "Searching for genesis hash.."
       :: map Progress
            (filter (fun m => m mod 1000000 =? 999999)
               (nonces 999999 (S (Z.to_nat (999999 - 999999))))).
Proof.
  split; [exact generate_hash_at_999999 |].
  exact (generate_hash_output installed 1 bitcoin_header_999999 "SHA256" 999999
           0x2200ffff _ _ _ generate_hash_at_999999).
Defined.

(** ** Nonce updates compose *)

(** X13: a nonce update overwrites the one before it: updating an updated
    block gives the same as updating the original block.  An update keeps
    the length of a block of at least four bytes and makes a shorter one
    four bytes long. *)
Theorem set_nonce_overwrites (data_block data_block' : bytes) (a b : Z) :
  set_nonce data_block a = Ok data_block' ->
  set_nonce data_block' b = set_nonce data_block b
  /\ List.length data_block' = Nat.max (List.length data_block) 4.
Proof.
  intros H. apply set_nonce_inv in H. destruct H as [_ ->].
  split.
  - unfold set_nonce. now rewrite drop_last4_app by apply le_bytes_length.
  - unfold drop_last4. rewrite length_app, length_firstn, le_bytes_length. lia.
Qed.

Lemma set_nonce_overwrites_witness :
  set_nonce bitcoin_header 0 = Ok bitcoin_header_0
  /\ set_nonce bitcoin_header_0 2083236893 = set_nonce bitcoin_header 2083236893.
Proof.
  assert (H : set_nonce bitcoin_header 0 = Ok bitcoin_header_0)
    by (vm_compute; reflexivity).
  split; [exact H |].
  exact (proj1 (set_nonce_overwrites bitcoin_header bitcoin_header_0 0 2083236893 H)).
Defined.

(** ** Timestamps of 256 to 4095 characters *)

Lemma format_02x_three_digits (n : Z) :
  256 <= n < 4096 ->
  format_02x n = String (hex_digit (Z.shiftr n 8)) (hex [byte_of_Z n]).
Proof.
  intros H.
  assert (A : forallb (fun k =>
                String.eqb (format_02x (256 + Z.of_nat k))
                  (String (hex_digit (Z.shiftr (256 + Z.of_nat k) 8))
                     (hex [byte_of_Z (256 + Z.of_nat k)])))
                (seq 0 3840) = true)
    by (vm_compute; reflexivity).
  rewrite forallb_forall in A.
  specialize (A (Z.to_nat (n - 256))).
  replace (256 + Z.of_nat (Z.to_nat (n - 256))) with n in A by lia.
  apply String.eqb_eq, A, in_seq. lia.
Qed.

(** X14: for a timestamp of 256 to 4095 characters that can be encoded, the
    length is written with three hexadecimal digits, the script text has an
    odd number of digits, and [create_input_script] prints that text and
    then raises [ValueError]: no script is returned. *)
Theorem create_input_script_three_digits (psz_timestamp : unicode) (encoded : bytes) :
  encode_utf8 psz_timestamp = Ok encoded ->
  (256 <= len psz_timestamp <= 4095)%nat ->
  create_input_script psz_timestamp
  = ([Line ("04ffff001d01044c" ++ format_02x (Z.of_nat (len psz_timestamp))
            ++ hex encoded)],
     Raised ValueError).
Proof.
  intros Henc Hlen. unfold create_input_script.
  rewrite Henc.
  destruct (Z.ltb_spec 76 (Z.of_nat (len psz_timestamp))) as [_ | Hsmall]; [| lia].
  cbn [lift bind print emit app].
  assert (Etext :
    (("04ffff001d0104" ++ "4c" ++ format_02x (Z.of_nat (len psz_timestamp)))
       ++ hex encoded)%string
    = ("04ffff001d01044c" ++ format_02x (Z.of_nat (len psz_timestamp))
       ++ hex encoded)%string) by (now rewrite !append_assoc).
  rewrite Etext.
  rewrite format_02x_three_digits by lia.
  change "04ffff001d01044c"%string with (hex [x04; xff; xff; x00; x1d; x01; x04; x4c]).
  change (String ?d (hex [?b]) ++ hex encoded)%string
    with (String d (hex [b] ++ hex encoded)).
  rewrite <- hex_app, fromhex_hex_app.
  assert (Hd : 0 <= Z.shiftr (Z.of_nat (len psz_timestamp)) 8 < 16).
  { rewrite Z.shiftr_div_pow2 by lia. change (2 ^ 8) with 256.
    split; [apply Z.div_pos; lia | apply Z.div_lt_upper_bound; lia]. }
  rewrite (fromhex_odd _ _ _ (hex_digit_not_space _ Hd) (hex_value_digit _ Hd)).
  reflexivity.
Qed.

Lemma create_input_script_three_digits_witness :
  encode_utf8 long_timestamp = Ok (repeat x61 256)
  /\ (256 <= len long_timestamp <= 4095)%nat
  /\ snd (create_input_script long_timestamp) = Raised ValueError.
Proof.
  assert (H1 : encode_utf8 long_timestamp = Ok (repeat x61 256))
    by (vm_compute; reflexivity).
  assert (H2 : (256 <= len long_timestamp <= 4095)%nat)
    by (split; apply Nat.leb_le; vm_compute; reflexivity).
  split; [exact H1 | split; [exact H2 |]].
  rewrite (create_input_script_three_digits long_timestamp _ H1 H2). reflexivity.
Defined.

(** ** Where the setup stops *)

(** The setup once the input script is there. *)
Lemma setup_after_script (L : Libs) (options : Options.t) (out : list event)
    (input_script : bytes) :
  create_input_script (Options.timestamp options) = (out, Return input_script) ->
  setup L options =
  match create_output_script (Options.pubkey options) with
  | Raise e => (out, Raised e)
  | Ok output_script =>
      match create_transaction input_script output_script options with
      | Raise e => (out, Raised e)
      | Ok tx =>
          match create_block_header (sha256 L (sha256 L tx)) (Options.time options)
                  (Options.bits options) (Options.nonce options) with
          | Raise e => (out ++ block_info options (sha256 L (sha256 L tx)), Raised e)
          | Ok header =>
              (out ++ block_info options (sha256 L (sha256 L tx)), Return header)
          end
      end
  end.
Proof.
  intros H. unfold setup. rewrite H. cbn [bind].
  destruct (create_output_script (Options.pubkey options)) as [output_script | e].
  - rewrite bind_lift_ok.
    destruct (create_transaction input_script output_script options) as [tx | e].
    + rewrite bind_lift_ok.
      destruct (create_block_header (sha256 L (sha256 L tx)) (Options.time options)
                  (Options.bits options) (Options.nonce options)) as [header | e];
        reflexivity.
    + rewrite bind_lift_raise. cbn. now rewrite app_nil_r.
  - rewrite bind_lift_raise. cbn. now rewrite app_nil_r.
Qed.

(** The input script of a short ASCII timestamp. *)
Lemma create_input_script_ascii (psz_timestamp : unicode) (encoded : bytes) :
  encode_utf8 psz_timestamp = Ok encoded ->
  List.length encoded = len psz_timestamp ->
  (List.length encoded <= 255)%nat ->
  create_input_script psz_timestamp
  = ([Line (hex (spec_input_script encoded))], Return (spec_input_script encoded)).
Proof.
  intros Henc Hlen Hmax. unfold create_input_script.
  rewrite Henc, <- Hlen.
  cbn [lift bind print emit app].
  rewrite <- append_assoc, append_assoc, (append_assoc "04ffff001d0104").
  rewrite (script_text encoded (Z.of_nat (List.length encoded))) by (reflexivity || lia).
  now rewrite fromhex_hex.
Qed.

Lemma spec_input_script_length (encoded : bytes) :
  List.length (spec_input_script encoded)
  = (8 + (if (76 <? List.length encoded)%nat then 1 else 0) + List.length encoded)%nat.
Proof.
  unfold spec_input_script.
  destruct (76 <? List.length encoded)%nat; rewrite !length_app; simpl; lia.
Qed.

(** X15: an ASCII timestamp of 247 to 255 characters cannot be used: its
    input script is longer than 255 bytes, so after that script has been
    printed the setup ends with an exception (from the key or from the
    transaction builder) and no header is built; the block information is
    not printed. *)
Theorem setup_timestamp_too_long (L : Libs) (options : Options.t) (encoded : bytes) :
  encode_utf8 (Options.timestamp options) = Ok encoded ->
  List.length encoded = len (Options.timestamp options) ->
  (247 <= List.length encoded <= 255)%nat ->
  exists e,
    setup L options = ([Line (hex (spec_input_script encoded))], Raised e).
Proof.
  intros Henc Hlen Hrange.
  rewrite (setup_after_script L options _ _
             (create_input_script_ascii _ _ Henc Hlen ltac:(lia))).
  destruct (create_output_script (Options.pubkey options)) as [output_script | e];
    [| now exists e].
  rewrite create_transaction_eval.
  destruct (pack_q (Options.value options)) as [v | e]; [| now exists e].
  rewrite spec_input_script_length.
  destruct (Nat.ltb_spec 76 (List.length encoded)); [| lia].
  destruct (Nat.leb_spec (8 + 1 + List.length encoded) 255); [lia |].
  cbn [andb]. now exists FieldError.
Qed.

Lemma setup_timestamp_too_long_witness :
  (247 <= List.length (repeat x61 247) <= 255)%nat
  /\ exists e,
       setup installed long_timestamp_options
       = ([Line (hex (spec_input_script (repeat x61 247)))], Raised e).
Proof.
  assert (H : (247 <= List.length (repeat x61 247) <= 255)%nat)
    by (split; apply Nat.leb_le; vm_compute; reflexivity).
  split; [exact H |].
  refine (setup_timestamp_too_long installed long_timestamp_options
            (repeat x61 247) _ _ H);
    vm_compute; reflexivity.
Defined.

(** X16: a key text with a character that is neither a hexadecimal digit
    nor white space stops the setup with [ValueError] right after the input
    script was printed: the key is looked at only then, and neither the
    transaction nor the header is built. *)
Theorem setup_bad_pubkey (L : Libs) (options : Options.t) (out : list event)
    (input_script : bytes) (c : ascii) :
  create_input_script (Options.timestamp options) = (out, Return input_script) ->
  In c (list_ascii_of_string (Options.pubkey options)) ->
  hex_or_space c = false ->
  setup L options = (out, Raised ValueError).
Proof.
  intros Hscript Hc Hbad.
  rewrite (setup_after_script L options _ _ Hscript).
  unfold create_output_script.
  rewrite (fromhex_bad_char _ c); [reflexivity | | exact Hbad].
  apply in_list_ascii_app. right. apply in_list_ascii_app. now left.
Qed.

Lemma setup_bad_pubkey_witness :
  In "x"%char (list_ascii_of_string (Options.pubkey bad_key_options))
  /\ hex_or_space "x" = false
  /\ snd (setup installed bad_key_options) = Raised ValueError.
Proof.
  assert (H1 : In "x"%char (list_ascii_of_string (Options.pubkey bad_key_options)))
    by (right; left; reflexivity).
  assert (H2 : hex_or_space "x" = false) by reflexivity.
  split; [exact H1 | split; [exact H2 |]].
  rewrite (setup_bad_pubkey installed bad_key_options _ _ "x"
             create_input_script_bitcoin H1 H2).
  reflexivity.
Defined.

(** ** Timestamps that are not ASCII *)

Lemma utf8_char_length (c : Z) (b : bytes) :
  utf8_char c = Ok b ->
  (1 <= List.length b)%nat /\ (List.length b = 1%nat <-> c < 0x80).
Proof.
  unfold utf8_char.
  destruct (Z.ltb_spec c 0); [discriminate |].
  destruct (Z.ltb_spec c 0x80);
    [intros [= <-]; cbn [List.length]; split; [lia | split; intros; [assumption | reflexivity]] |].
  destruct (Z.ltb_spec c 0x800);
    [intros [= <-]; cbn [List.length]; split; [lia | split; intros; lia] |].
  destruct ((0xd800 <=? c) && (c <=? 0xdfff)); [discriminate |].
  destruct (Z.ltb_spec c 0x10000);
    [intros [= <-]; cbn [List.length]; split; [lia | split; intros; lia] |].
  destruct (Z.ltb_spec c 0x110000); [| discriminate].
  intros [= <-]; cbn [List.length]; split; [lia | split; intros; lia].
Qed.

Lemma encode_utf8_length (s : unicode) (encoded : bytes) :
  encode_utf8 s = Ok encoded ->
  (len s <= List.length encoded)%nat
  /\ (List.length encoded = len s <-> Forall (fun c => c < 0x80) s).
Proof.
  unfold len. revert encoded.
  induction s as [| c s IH]; intros encoded; cbn [encode_utf8 List.length].
  - intros [= <-]. cbn. split; [lia | split; [constructor | reflexivity]].
  - destruct (utf8_char c) as [b | e] eqn:Ec; [| discriminate].
    destruct (encode_utf8 s) as [bs | e] eqn:Es; [| discriminate].
    cbn [rbind]. intros [= <-].
    destruct (utf8_char_length c b Ec) as [Hb1 Hb2].
    destruct (IH bs eq_refl) as [Hs1 Hs2].
    rewrite length_app, Forall_cons_iff, <- Hb2, <- Hs2. lia.
Qed.

Lemma push_script_text (encoded : bytes) (count : nat) :
  (count <= 255)%nat ->
  ("04ffff001d0104" ++ (if (76 <? Z.of_nat count)%Z then "4c" else "")
   ++ format_02x (Z.of_nat count) ++ hex encoded)%string
  = hex (push_script count encoded).
Proof.
  intros Hn. unfold push_script.
  rewrite !hex_app, format_02x_byte by lia.
  destruct (Z.ltb_spec 76 (Z.of_nat count));
    destruct (Nat.ltb_spec 76 count); try reflexivity; lia.
Qed.

(** X17: for every timestamp that can be encoded and has at most 255
    characters, [create_input_script] prints and returns the prefix
    04 ff ff 00 1d 01 04, the marker 4c when there are more than 76
    characters, one byte holding the number of characters, and the UTF-8
    bytes.  The announced length is the number of characters: it is at most
    the number of bytes that follow, and equal to it exactly when every
    character is ASCII. *)
Theorem create_input_script_unicode (psz_timestamp : unicode) (encoded : bytes) :
  encode_utf8 psz_timestamp = Ok encoded ->
  (len psz_timestamp <= 255)%nat ->
  create_input_script psz_timestamp
  = ([Line (hex (push_script (len psz_timestamp) encoded))],
     Return (push_script (len psz_timestamp) encoded))
  /\ (len psz_timestamp <= List.length encoded)%nat
  /\ (List.length encoded = len psz_timestamp
      <-> Forall (fun c => c < 0x80) psz_timestamp).
Proof.
  intros Henc Hmax. split; [| exact (encode_utf8_length _ _ Henc)].
  unfold create_input_script. rewrite Henc.
  cbn [lift bind print emit app].
  rewrite <- append_assoc, append_assoc, (append_assoc "04ffff001d0104").
  rewrite (push_script_text encoded (len psz_timestamp) Hmax).
  now rewrite fromhex_hex.
Qed.

Lemma create_input_script_unicode_witness :
  (len litecoin_timestamp <= 255)%nat
  /\ len litecoin_timestamp = 62%nat
  /\ (exists encoded,
        List.length encoded = 64%nat
        /\ snd (create_input_script litecoin_timestamp)
           = Return (push_script 62 encoded)).
Proof.
  assert (H : (len litecoin_timestamp <= 255)%nat)
    by (apply Nat.leb_le; vm_compute; reflexivity).
  split; [exact H | split; [vm_compute; reflexivity |]].
  destruct (encode_utf8 litecoin_timestamp) as [encoded | e] eqn:E;
    [| vm_compute in E; discriminate].
  exists encoded. split.
  - vm_compute in E. injection E as <-. reflexivity.
  - destruct (create_input_script_unicode litecoin_timestamp encoded E H) as [-> _].
    reflexivity.
Defined.

Lemma utf8_char_raises (c : Z) (e : exn) :
  utf8_char c = Raise e -> e = UnicodeEncodeError.
Proof.
  unfold utf8_char.
  repeat match goal with
         | |- context [if ?b then _ else _] => destruct b
         end; congruence.
Qed.

Lemma encode_utf8_raises (s : unicode) (e : exn) :
  encode_utf8 s = Raise e -> e = UnicodeEncodeError.
Proof.
  induction s as [| c s IH]; cbn [encode_utf8]; [discriminate |].
  destruct (utf8_char c) as [b | e'] eqn:Ec; cbn [rbind].
  - destruct (encode_utf8 s) as [bs | e'']; cbn [rbind]; [discriminate |].
    intros [= <-]. now apply IH.
  - intros [= <-]. now apply utf8_char_raises in Ec.
Qed.

Lemma encode_utf8_surrogate (s : unicode) (c : Z) :
  In c s -> 0xd800 <= c <= 0xdfff -> encode_utf8 s = Raise UnicodeEncodeError.
Proof.
  intros Hin Hc.
  destruct (encode_utf8 s) as [bs | e] eqn:E;
    [| now rewrite (encode_utf8_raises s e E)].
  exfalso. revert bs E.
  induction s as [| d s IH]; [destruct Hin |].
  intros bs. cbn [encode_utf8].
  destruct (utf8_char d) as [b | e] eqn:Ed; [| discriminate].
  destruct (encode_utf8 s) as [bs' | e] eqn:Es; [| discriminate].
  destruct Hin as [-> | Hin]; [| intros _; exact (IH Hin bs' eq_refl)].
  intros _. unfold utf8_char in Ed.
  destruct (Z.ltb_spec c 0); [lia |].
  destruct (Z.ltb_spec c 0x80); [lia |].
  destruct (Z.ltb_spec c 0x800); [lia |].
  destruct (Z.leb_spec 0xd800 c); [| lia].
  destruct (Z.leb_spec c 0xdfff); [| lia].
  discriminate.
Qed.

(** X18: a timestamp that holds a surrogate code point (what an argument
    byte that is not UTF-8 becomes) cannot be encoded:
    [create_input_script] raises [UnicodeEncodeError] before it prints, and
    [main], the algorithm being supported, ends with that exception and
    without any output. *)
Theorem main_surrogate_timestamp (L : Libs) (fuel : nat) (options : Options.t)
    (algorithm : string) (c : Z) :
  In c (Options.timestamp options) ->
  0xd800 <= c <= 0xdfff ->
  get_algorithm options = Ok algorithm ->
  create_input_script (Options.timestamp options) = ([], Raised UnicodeEncodeError)
  /\ main L fuel options = ([], Raised UnicodeEncodeError).
Proof.
  intros Hin Hc Halg.
  assert (E : create_input_script (Options.timestamp options)
              = ([], Raised UnicodeEncodeError)).
  { unfold create_input_script.
    now rewrite (encode_utf8_surrogate _ c Hin Hc). }
  split; [exact E |].
  rewrite (main_setup L fuel options algorithm Halg).
  unfold setup. now rewrite E.
Qed.

Lemma main_surrogate_timestamp_witness :
  In 0xdc80 (Options.timestamp surrogate_options)
  /\ main installed 1 surrogate_options = ([], Raised UnicodeEncodeError).
Proof.
  assert (H : In 0xdc80 (Options.timestamp surrogate_options))
    by (right; left; reflexivity).
  split; [exact H |].
  apply (main_surrogate_timestamp installed 1 surrogate_options "SHA256" 0xdc80 H);
    [lia | reflexivity].
Defined.

(** ** The header fields and the block information *)



(** What the setup has done when it returns a header. *)
Lemma setup_inv (L : Libs) (options : Options.t) (out : list event)
    (block_header : bytes) :
  setup L options = (out, Return block_header) ->
  exists script_hex input_script output_script tx,
    create_input_script (Options.timestamp options)
      = ([Line script_hex], Return input_script)
    /\ create_output_script (Options.pubkey options) = Ok output_script
    /\ create_transaction input_script output_script options = Ok tx
    /\ create_block_header (sha256 L (sha256 L tx)) (Options.time options)
         (Options.bits options) (Options.nonce options) = Ok block_header
    /\ out = Line script_hex :: block_info options (sha256 L (sha256 L tx)).
Proof.
  intros H.
  assert (E : exists script_hex input_script,
             create_input_script (Options.timestamp options)
             = ([Line script_hex], Return input_script)).
  { revert H. unfold setup, create_input_script.
    destruct (encode_utf8 (Options.timestamp options)) as [encoded | e];
      [| discriminate].
    cbn [lift bind print emit app].
    match goal with
    | |- context [lift (fromhex ?s)] => destruct (fromhex s) as [script | e]
    end; [| discriminate].
    intros _. now eexists _, script. }
  destruct E as (script_hex & input_script & E).
  rewrite (setup_after_script L options _ _ E) in H.
  destruct (create_output_script (Options.pubkey options)) as [output_script | e];
    [| discriminate].
  destruct (create_transaction input_script output_script options) as [tx | e] eqn:Etx;
    [| discriminate].
  destruct (create_block_header (sha256 L (sha256 L tx)) (Options.time options)
              (Options.bits options) (Options.nonce options)) as [header | e] eqn:Eh;
    [| discriminate].
  injection H as <- <-.
  exists script_hex, input_script, output_script, tx.
  repeat (split; [reflexivity || assumption |]). reflexivity.
Qed.

Lemma spec_block_header_root (merkle_root : bytes) (time bits nonce : Z) :
  List.length merkle_root = 32%nat ->
  firstn 32 (skipn 36 (spec_block_header merkle_root time bits nonce)) = merkle_root.
Proof.
  intros H. unfold spec_block_header.
  rewrite (app_assoc (le_bytes 4 1)).
  assert (E : List.length (le_bytes 4 1 ++ repeat x00 32) = 36%nat)
    by (rewrite length_app, le_bytes_length, repeat_length; reflexivity).
  rewrite skipn_app, E, Nat.sub_diag, skipn_all2 by lia.
  cbn [skipn app].
  rewrite firstn_app, H, Nat.sub_diag, firstn_all2 by lia.
  cbn [firstn]. apply app_nil_r.
Qed.

(** X20: the merkle hash the program prints and the merkle root in the
    header are the same bytes in opposite orders: when the setup returns a
    header, it has printed the input script and the six lines of block
    information of the header's bytes 36 to 67, the third line being their
    hexadecimal text in reverse byte order. *)
Theorem setup_prints_header_root (L : Libs) (options : Options.t) (out : list event)
    (block_header : bytes) :
  setup L options = (out, Return block_header) ->
  exists script_hex,
    out = Line script_hex
          :: block_info options (firstn 32 (skipn 36 block_header))
    /\ nth_error out 2
       = Some (Line ("merkle hash: "
                     ++ hex (rev (firstn 32 (skipn 36 block_header))))).
Proof.
  intros H.
  destruct (setup_inv L options out block_header H)
    as (script_hex & input_script & output_script & tx & _ & _ & _ & Hh & ->).
  apply create_block_header_inv in Hh.
  destruct Hh as (Hroot & _ & _ & _ & ->).
  rewrite (spec_block_header_root _ _ _ _ Hroot).
  exists script_hex. split; reflexivity.
Qed.

Lemma setup_prints_header_root_witness :
  snd (setup installed bitcoin) = Return bitcoin_header
  /\ nth_error (fst (setup installed bitcoin)) 2
     = Some (Line ("merkle hash: "
                   ++ hex (rev (firstn 32 (skipn 36 bitcoin_header))))).
Proof.
  split; [now rewrite setup_bitcoin |].
  destruct (setup_prints_header_root installed bitcoin _ _ setup_bitcoin)
    as (script_hex & E & Hline).
  rewrite setup_bitcoin. exact Hline.
Defined.

(** ** A configuration the setup accepts *)

Lemma create_output_script_key (key : bytes) :
  create_output_script (hex key) = Ok ([x41] ++ key ++ [xac]).
Proof.
  unfold create_output_script.
  change "41"%string with (hex [x41]). change "ac"%string with (hex [xac]).
  rewrite <- !hex_app. apply fromhex_hex.
Qed.

(** X21: an ASCII timestamp of at most 246 characters, a key of 65 bytes
    given in hexadecimal, a value that fits 64 signed bits, and time, bits
    and nonce in [0, 2^32) are accepted (the hash of the library being 32
    bytes long): the setup prints the input script and the block
    information and returns the 80-byte header whose merkle root is the
    double hash of the coinbase transaction. *)
Theorem setup_returns (L : Libs) (options : Options.t) (encoded key : bytes) :
  encode_utf8 (Options.timestamp options) = Ok encoded ->
  List.length encoded = len (Options.timestamp options) ->
  (List.length encoded <= 246)%nat ->
  Options.pubkey options = hex key ->
  List.length key = 65%nat ->
  - 2 ^ 63 <= Options.value options < 2 ^ 63 ->
  0 <= Options.time options < 2 ^ 32 ->
  0 <= Options.bits options < 2 ^ 32 ->
  0 <= Options.nonce options < 2 ^ 32 ->
  List.length (sha256 L (sha256 L (coinbase encoded key (Options.value options))))
    = 32%nat ->
  setup L options
  = (Line (hex (spec_input_script encoded))
     :: block_info options
          (sha256 L (sha256 L (coinbase encoded key (Options.value options)))),
     Return (spec_block_header
               (sha256 L (sha256 L (coinbase encoded key (Options.value options))))
               (Options.time options) (Options.bits options) (Options.nonce options)))
  /\ List.length
       (spec_block_header
          (sha256 L (sha256 L (coinbase encoded key (Options.value options))))
          (Options.time options) (Options.bits options) (Options.nonce options))
     = 80%nat.
Proof.
  intros Henc Hlen Hmax Hkey Hk Hvalue Htime Hbits Hnonce Hroot.
  split; [| now apply spec_block_header_length].
  rewrite (setup_after_script L options _ _
             (create_input_script_ascii _ _ Henc Hlen ltac:(lia))).
  rewrite Hkey, create_output_script_key, create_transaction_eval.
  rewrite pack_q_ok by exact Hvalue.
  rewrite spec_input_script_length.
  replace ((8 + (if (76 <? List.length encoded)%nat then 1 else 0)
            + List.length encoded <=? 255)%nat) with true
    by (symmetry; apply Nat.leb_le; destruct (76 <? List.length encoded)%nat; lia).
  replace (List.length ([x41] ++ key ++ [xac]) =? 67)%nat with true
    by (symmetry; apply Nat.eqb_eq; rewrite !length_app, Hk; reflexivity).
  cbn [andb]. fold (coinbase encoded key (Options.value options)).
  rewrite create_block_header_eval, !pack_I_ok by assumption.
  rewrite Hroot. reflexivity.
Qed.

Lemma setup_returns_witness :
  (List.length (map byte_of_Z (Options.timestamp bitcoin)) <= 246)%nat
  /\ snd (setup installed bitcoin)
     = Return (spec_block_header
                 (sha256 installed (sha256 installed
                    (coinbase (map byte_of_Z (Options.timestamp bitcoin))
                       (bytes_of_hex (Options.pubkey bitcoin)) 5000000000)))
                 1231006505 0x1d00ffff 2083236893).
Proof.
  assert (H : (List.length (map byte_of_Z (Options.timestamp bitcoin)) <= 246)%nat)
    by (apply Nat.leb_le; vm_compute; reflexivity).
  split; [exact H |].
  destruct (setup_returns installed bitcoin
              (map byte_of_Z (Options.timestamp bitcoin))
              (bytes_of_hex (Options.pubkey bitcoin))
              ltac:(vm_compute; reflexivity) ltac:(vm_compute; reflexivity) H
              ltac:(vm_compute; reflexivity) ltac:(vm_compute; reflexivity)
              ltac:(cbn; lia) ltac:(cbn; lia) ltac:(cbn; lia) ltac:(cbn; lia)
              ltac:(vm_compute; reflexivity)) as [-> _].
  reflexivity.
Defined.
